(** * SafeCity dashboard: data pipeline and callbacks of [src/app.py]

    A shallow embedding of the crime-data loaders, the wide-to-long
    reshaper, the heatmap aggregator and the combined graph/dropdown
    callback, together with the properties stated for them.

    Tables are pandas data frames: a list of column labels and a list of
    rows of cells.  Python exceptions are made explicit with a small
    error monad; [None] is [option]. *)

From Stdlib Require Import List ZArith String Bool Lia Permutation Sorted.
Import ListNotations.

Local Open Scope string_scope.
Local Open Scope list_scope.

(** ** Exceptions and the error monad *)

Inductive exn : Type :=
| FileNotFoundError
| EmptyDataError
| JSONDecodeError
| KeyError (labels : list string)
| ValueError
| TypeError.

Inductive result (A : Type) : Type :=
| Ok (a : A)
| Raise (e : exn).

Arguments Ok {A} a.
Arguments Raise {A} e.

Definition bind {A B : Type} (m : result A) (k : A -> result B) : result B :=
  match m with
  | Ok a => k a
  | Raise e => Raise e
  end.

Notation "x <- m ;; k" := (bind m (fun x => k))
  (at level 61, m at next level, right associativity).

Fixpoint mapM {A B : Type} (f : A -> result B) (l : list A) : result (list B) :=
  match l with
  | [] => Ok []
  | a :: l' => b <- f a ;; bs <- mapM f l' ;; Ok (b :: bs)
  end.

(** ** Cells and data frames *)

(** A cell holds text (dtype object) or an integer count (dtype int64).
    Missing cells (NaN) are outside the model: the tables considered have
    none. *)
Inductive value : Type :=
| VStr (s : string)
| VInt (z : Z).

Definition value_eqb (a b : value) : bool :=
  match a, b with
  | VStr s, VStr t => String.eqb s t
  | VInt x, VInt y => Z.eqb x y
  | _, _ => false
  end.

Definition is_str (v : value) : bool :=
  match v with VStr _ => true | VInt _ => false end.

Definition is_int (v : value) : bool :=
  match v with VInt _ => true | VStr _ => false end.

(** The number a cell contributes to a sum of counts. *)
Definition int_of (v : value) : Z :=
  match v with VInt z => z | VStr _ => 0%Z end.

Record DataFrame : Type := mkFrame {
  columns : list string;
  rows : list (list value)
}.

Definition mem (c : string) (l : list string) : bool :=
  existsb (String.eqb c) l.

Fixpoint index_of (c : string) (l : list string) : option nat :=
  match l with
  | [] => None
  | x :: l' => if String.eqb c x then Some 0%nat
               else option_map S (index_of c l')
  end.

(** The cell of row [r] under label [c]; rows are as wide as the header in
    every frame that is built here. *)
Definition cell (cols : list string) (r : list value) (c : string) : value :=
  match index_of c cols with
  | Some i => nth i r (VStr "")
  | None => VStr ""
  end.

(** [df[c]]: the column labelled [c], or [KeyError]. *)
Definition column (df : DataFrame) (c : string) : result (list value) :=
  match index_of c (columns df) with
  | Some i => Ok (map (fun r => nth i r (VStr "")) (rows df))
  | None => Raise (KeyError [c])
  end.

Fixpoint nodupb (l : list string) : bool :=
  match l with
  | [] => true
  | x :: l' => negb (mem x l') && nodupb l'
  end.

(** ** [DataFrame.melt] *)

(** [frame.melt(id_vars=..., var_name=..., value_name=...)] with the value
    columns left to default: every column that is not an identifier.  The
    frame is rejected when it already has a column called [value_name], or
    when an identifier is missing.  The result lists the value columns one
    after the other (column-major), each paired with the identifier cells
    of its row. *)
Definition value_columns (cols id_vars : list string) : list (nat * string) :=
  filter (fun p => negb (mem (snd p) id_vars))
         (combine (seq 0 (List.length cols)) cols).

Definition melt (frame : DataFrame) (id_vars : list string)
    (var_name value_name : string) : result DataFrame :=
  if mem value_name (columns frame) then Raise ValueError
  else
    match filter (fun c => negb (mem c (columns frame))) id_vars with
    | (_ :: _) as missing => Raise (KeyError missing)
    | [] =>
      Ok {| columns := id_vars ++ [var_name; value_name];
            rows :=
              flat_map
                (fun p : nat * string =>
                   map (fun r =>
                          map (cell (columns frame) r) id_vars
                          ++ [VStr (snd p); nth (fst p) r (VStr "")])
                       (rows frame))
                (value_columns (columns frame) id_vars) |}
    end.

(** ** The reshaper, [melt_crime_data] *)

Definition id_vars : list string :=
  ["BoroughName"; "MajorCrimeCategory"; "CrimeSubcategory"].

Definition melt_crime_data (df : option DataFrame)
    : result (option DataFrame) :=
  match df with
  | Some d => long <- melt d id_vars "Month" "CrimeCount" ;; Ok (Some long)
  | None => Ok df
  end.

(** The header of the reshaped table. *)
Definition long_columns : list string :=
  ["BoroughName"; "MajorCrimeCategory"; "CrimeSubcategory";
   "Month"; "CrimeCount"].

(** A wide crime table: unique labels, the three identifier columns
    present and holding text, every other column a month of integer
    counts, no column already called CrimeCount, every row as wide as the
    header. *)
Definition month_columns (df : DataFrame) : list string :=
  filter (fun c => negb (mem c id_vars)) (columns df).

Definition wide_row_ok (cols : list string) (r : list value) : bool :=
  Nat.eqb (List.length r) (List.length cols)
  && forallb (fun p => if mem (fst p) id_vars then is_str (snd p)
                       else is_int (snd p))
             (combine cols r).

Definition valid_wide (df : DataFrame) : bool :=
  nodupb (columns df)
  && forallb (fun c => mem c (columns df)) id_vars
  && negb (mem "CrimeCount" (columns df))
  && forallb (wide_row_ok (columns df)) (rows df).

(** The reshaped table: the five columns, typed. *)
Definition long_row_ok (r : list value) : bool :=
  match r with
  | [VStr _; VStr _; VStr _; VStr _; VInt _] => true
  | _ => false
  end.

Fixpoint labels_eqb (l1 l2 : list string) : bool :=
  match l1, l2 with
  | [], [] => true
  | x :: l1', y :: l2' => String.eqb x y && labels_eqb l1' l2'
  | _, _ => false
  end.

Definition long_format (df : DataFrame) : bool :=
  labels_eqb (columns df) long_columns && forallb long_row_ok (rows df).

(** ** The loaders, [load_crime_data] and [load_geojson] *)

(** A data file on disk: missing, present with no content, or present with
    content that parses to [content]. *)
Inductive file (A : Type) : Type :=
| Absent
| Empty
| Holds (content : A).

Arguments Absent {A}.
Arguments Empty {A}.
Arguments Holds {A} content.

(** [pd.read_csv(path)]. *)
Definition read_csv (f : file DataFrame) : result DataFrame :=
  match f with
  | Absent => Raise FileNotFoundError
  | Empty => Raise EmptyDataError
  | Holds df => Ok df
  end.

(** The boundary data: named regions (the polygons are not needed here). *)
Record Feature : Type := mkFeature { properties_name : string }.
Record GeoJSON : Type := mkGeoJSON { features : list Feature }.

(** [open(path, "r")] followed by [json.load(file)]. *)
Definition json_load (f : file GeoJSON) : result GeoJSON :=
  match f with
  | Absent => Raise FileNotFoundError
  | Empty => Raise JSONDecodeError
  | Holds g => Ok g
  end.

(** [try: body except ...]: [handler] answers for the exceptions that have
    an [except] clause; any other exception goes on to the caller. *)
Definition try_except {A : Type} (body : result A)
    (handler : exn -> option (result A)) : result A :=
  match body with
  | Ok a => Ok a
  | Raise e => match handler e with
               | Some r => r
               | None => Raise e
               end
  end.

(** [df.rename(columns={...}, inplace=True)]. *)
Fixpoint renamed (mapping : list (string * string)) (c : string) : string :=
  match mapping with
  | [] => c
  | (old, new) :: mapping' =>
      if String.eqb c old then new else renamed mapping' c
  end.

Definition rename (df : DataFrame) (mapping : list (string * string))
    : DataFrame :=
  {| columns := map (renamed mapping) (columns df); rows := rows df |}.

(** The two loaders take the state of their file.  The messages they
    print in the [except] clauses go to the console only. *)
Definition load_crime_data (crime_csv : file DataFrame)
    : result (option DataFrame) :=
  try_except
    (crime_df <- read_csv crime_csv ;;
     Ok (Some (rename crime_df
                 [("MajorText", "MajorCrimeCategory");
                  ("MinorText", "CrimeSubcategory")])))
    (fun e => match e with
              | FileNotFoundError => Some (Ok None)
              | EmptyDataError => Some (Ok None)
              | _ => None
              end).

Definition load_geojson (geojson_path : file GeoJSON)
    : result (option GeoJSON) :=
  try_except
    (geojson_data <- json_load geojson_path ;;
     Ok (Some geojson_data))
    (fun e => match e with
              | FileNotFoundError => Some (Ok None)
              | _ => None
              end).

(** ** Selecting, distinct values and grouped sums *)

(** [df[df[c] == s]]. *)
Definition filter_eq (df : DataFrame) (c s : string) : result DataFrame :=
  _ <- column df c ;;
  Ok {| columns := columns df;
        rows := filter (fun r => value_eqb (cell (columns df) r c) (VStr s))
                       (rows df) |}.

(** [Series.unique()]: distinct values in order of first appearance. *)
Fixpoint unique (l : list value) : list value :=
  match l with
  | [] => []
  | v :: l' => v :: filter (fun w => negb (value_eqb w v)) (unique l')
  end.

(** Group keys are sorted: numbers before text, text by code point. *)
Definition value_leb (a b : value) : bool :=
  match a, b with
  | VInt x, VInt y => Z.leb x y
  | VInt _, VStr _ => true
  | VStr _, VInt _ => false
  | VStr s, VStr t => String.leb s t
  end.

Fixpoint insert_sorted (v : value) (l : list value) : list value :=
  match l with
  | [] => [v]
  | w :: l' => if value_leb v w then v :: l else w :: insert_sorted v l'
  end.

Definition sort_values (l : list value) : list value :=
  fold_right insert_sorted [] l.

(** Summing a column: integers add, text concatenates, a mix is a
    [TypeError]. *)
Definition add_cells (a b : value) : result value :=
  match a, b with
  | VInt x, VInt y => Ok (VInt (x + y))
  | VStr s, VStr t => Ok (VStr (s ++ t))
  | _, _ => Raise TypeError
  end.

Fixpoint sum_cells (l : list value) : result value :=
  match l with
  | [] => Ok (VInt 0)
  | v :: l' =>
      match l' with
      | [] => Ok v
      | _ :: _ => s <- sum_cells l' ;; add_cells v s
      end
  end.

(** [df.groupby(key)[value_cols].sum().reset_index()]: one row per
    distinct key, keys sorted, each value column summed over the rows of
    the group. *)
Definition group_rows (df : DataFrame) (key : string) (k : value)
    : list (list value) :=
  filter (fun r => value_eqb (cell (columns df) r key) k) (rows df).

Definition groupby_sum (df : DataFrame) (key : string)
    (value_cols : list string) : result DataFrame :=
  keys <- column df key ;;
  _ <- mapM (column df) value_cols ;;
  rs <- mapM (fun k =>
                sums <- mapM (fun c =>
                                sum_cells (map (fun r => cell (columns df) r c)
                                               (group_rows df key k)))
                             value_cols ;;
                Ok (k :: sums))
             (sort_values (unique keys)) ;;
  Ok {| columns := key :: value_cols; rows := rs |}.

(** [df.groupby(key).sum()]: every other column is summed. *)
Definition other_columns (df : DataFrame) (key : string) : list string :=
  filter (fun c => negb (String.eqb c key)) (columns df).

(** ** Figures *)

Record Annotation : Type := mkAnnotation {
  text : string;
  xref : string;
  yref : string;
  showarrow : bool;
  font_size : Z
}.

Record Layout : Type := mkLayout {
  title : string;
  xaxis_visible : bool;
  yaxis_visible : bool;
  annotations : list Annotation
}.

(** What a callback hands to a graph: a bare [go.Figure] with a layout, or
    one of the plotly express charts with the frame it draws and the
    columns it reads.  Colours, fonts, margins and axis labels set with
    [update_layout] do not bear on the data and are left out. *)
Inductive Figure : Type :=
| GoFigure (layout : Layout)
| ChoroplethMap (data_frame : DataFrame) (geojson : GeoJSON)
    (locations featureidkey color fig_title : string)
| LineChart (data_frame : option DataFrame) (x y color fig_title : option string)
| PieChart (data_frame : DataFrame) (names values fig_title : string).

(** The rows of data a figure draws. *)
Definition plotted_rows (fig : Figure) : list (list value) :=
  match fig with
  | GoFigure _ => []
  | ChoroplethMap df _ _ _ _ _ => rows df
  | LineChart (Some df) _ _ _ _ => rows df
  | LineChart None _ _ _ _ => []
  | PieChart df _ _ _ => rows df
  end.

(** The message a placeholder figure shows, if the figure is one. *)
Definition placeholder_message (fig : Figure) : option string :=
  match fig with
  | GoFigure l =>
      match annotations l with
      | a :: _ => Some (text a)
      | [] => None
      end
  | _ => None
  end.

Definition empty_figure (message : string) : Figure :=
  GoFigure {| title := message;
              xaxis_visible := false;
              yaxis_visible := false;
              annotations :=
                [ {| text := message; xref := "paper"; yref := "paper";
                     showarrow := false; font_size := 20 |} ] |}.

(** The default of the [message] argument. *)
Definition empty_figure_default : Figure := empty_figure "No data available".

(** plotly express rejects a column name that the frame does not have. *)
Definition require_columns (df : DataFrame) (cs : list string) : result unit :=
  if forallb (fun c => mem c (columns df)) cs then Ok tt else Raise ValueError.

Definition px_choropleth_map (df : DataFrame) (geojson : GeoJSON)
    (locations featureidkey color fig_title : string) : result Figure :=
  _ <- require_columns df [locations; color] ;;
  Ok (ChoroplethMap df geojson locations featureidkey color fig_title).

Definition px_line (df : DataFrame) (x y : string) (color : option string)
    (fig_title : string) : result Figure :=
  _ <- require_columns df
         (x :: y :: match color with Some c => [c] | None => [] end) ;;
  Ok (LineChart (Some df) (Some x) (Some y) color (Some fig_title)).

(** [px.line()] with no arguments. *)
Definition px_line_empty : Figure := LineChart None None None None None.

Definition px_pie (df : DataFrame) (names values fig_title : string)
    : result Figure :=
  _ <- require_columns df [names; values] ;;
  Ok (PieChart df names values fig_title).

(** ** The heatmap callback, [update_heatmap] *)

(** [crime_df] and [geojson_data] are the module's globals; they are
    passed in. *)
Definition update_heatmap (crime_df : option DataFrame)
    (geojson_data : option GeoJSON) (n_clicks : Z) : result Figure :=
  match crime_df, geojson_data with
  | Some df, Some gj =>
      crime_summary <- groupby_sum df "BoroughName" ["CrimeCount"] ;;
      px_choropleth_map crime_summary gj "BoroughName" "properties.name"
        "CrimeCount" "Crime Heatmap of London"
  | _, _ => Ok (empty_figure "Error: No data available")
  end.

(** ** The combined callback, [update_graphs_and_dropdown] *)

Inductive Display : Type := display_none | display_block.

(** A callback output: a new value, or [dash.no_update]. *)
Inductive output (A : Type) : Type :=
| no_update
| new_value (a : A).

Arguments no_update {A}.
Arguments new_value {A} a.

Record DropdownOption : Type := mkOption {
  label : value;
  option_value : value
}.

(** The eight outputs, in the order of the decorator. *)
Record Outputs : Type := mkOutputs {
  graph_container_style : Display;
  crime_trend_figure : output Figure;
  pie_chart_figure : output Figure;
  pie_chart_style : Display;
  crime_breakdown_figure : output Figure;
  major_crime_options : list DropdownOption;
  major_crime_style : Display;
  major_crime_value : output (option string)
}.

(** Python truth of an optional string: [None] and [""] are false. *)
Definition truthy (s : option string) : bool :=
  match s with
  | None => false
  | Some t => negb (String.eqb t "")
  end.

Definition is_none {A : Type} (o : option A) : bool :=
  match o with None => true | Some _ => false end.

Definition hidden_outputs : Outputs :=
  {| graph_container_style := display_none;
     crime_trend_figure := no_update;
     pie_chart_figure := no_update;
     pie_chart_style := display_none;
     crime_breakdown_figure := no_update;
     major_crime_options := [];
     major_crime_style := display_none;
     major_crime_value := no_update |}.

Definition update_graphs_and_dropdown (crime_df : option DataFrame)
    (n_clicks : Z) (selected_major_crime selected_borough : option string)
    : result Outputs :=
  if (n_clicks =? 0)%Z || is_none crime_df || negb (truthy selected_borough)
  then Ok hidden_outputs
  else
    match crime_df, selected_borough with
    | Some df, Some borough =>
        filtered_df <- filter_eq df "BoroughName" borough ;;
        trend_df <- groupby_sum filtered_df "Month"
                      (other_columns filtered_df "Month") ;;
        trend_fig <- px_line trend_df "Month" "CrimeCount" None
                       ("Overall Crime Trend in " ++ borough ++ " Over Time") ;;
        pie_chart_df <- groupby_sum filtered_df "MajorCrimeCategory"
                          (other_columns filtered_df "MajorCrimeCategory") ;;
        pie_chart_fig <- px_pie pie_chart_df "MajorCrimeCategory" "CrimeCount"
                           ("Count of Each Major Crime Type in " ++ borough) ;;
        breakdown_fig <-
          (if truthy selected_major_crime then
             match selected_major_crime with
             | Some major =>
                 breakdown_df <- filter_eq filtered_df
                                   "MajorCrimeCategory" major ;;
                 px_line breakdown_df "Month" "CrimeCount"
                   (Some "CrimeSubcategory")
                   ("Crime Trend Over Time for " ++ major ++ " in " ++ borough)
             | None => Ok px_line_empty
             end
           else Ok px_line_empty) ;;
        categories <- column filtered_df "MajorCrimeCategory" ;;
        Ok {| graph_container_style := display_block;
              crime_trend_figure := new_value trend_fig;
              pie_chart_figure := new_value pie_chart_fig;
              pie_chart_style := display_block;
              crime_breakdown_figure := new_value breakdown_fig;
              major_crime_options :=
                map (fun mc => {| label := mc; option_value := mc |})
                    (unique categories);
              major_crime_style := display_block;
              major_crime_value := new_value None |}
    | _, _ => Ok hidden_outputs (* excluded by the test above *)
    end.

(** ** The page: components, events and callback firing *)

(** The properties of the components that the callbacks read and write. *)
Record UI : Type := mkUI {
  navigate_n_clicks : Z;
  borough_selection : option string;
  major_crime_selection : option string;
  crime_heatmap : option Figure;
  graph_container : Display;
  crime_trend_graph : option Figure;
  major_crime_pie_chart : option Figure;
  major_crime_pie_style : Display;
  crime_breakdown_graph : option Figure;
  major_crime_dropdown_options : list DropdownOption;
  major_crime_dropdown_style : Display
}.

(** The layout as declared: nothing selected, everything below the button
    hidden. *)
Definition layout_ui : UI :=
  {| navigate_n_clicks := 0;
     borough_selection := None;
     major_crime_selection := None;
     crime_heatmap := None;
     graph_container := display_none;
     crime_trend_graph := None;
     major_crime_pie_chart := None;
     major_crime_pie_style := display_none;
     crime_breakdown_graph := None;
     major_crime_dropdown_options := [];
     major_crime_dropdown_style := display_none |}.

Definition store {A : Type} (o : output A) (old : A) : A :=
  match o with
  | no_update => old
  | new_value a => a
  end.

Definition store_figure (o : output Figure) (old : option Figure)
    : option Figure :=
  match o with
  | no_update => old
  | new_value f => Some f
  end.

Definition apply_outputs (o : Outputs) (ui : UI) : UI :=
  {| navigate_n_clicks := navigate_n_clicks ui;
     borough_selection := borough_selection ui;
     major_crime_selection :=
       store (major_crime_value o) (major_crime_selection ui);
     crime_heatmap := crime_heatmap ui;
     graph_container := graph_container_style o;
     crime_trend_graph :=
       store_figure (crime_trend_figure o) (crime_trend_graph ui);
     major_crime_pie_chart :=
       store_figure (pie_chart_figure o) (major_crime_pie_chart ui);
     major_crime_pie_style := pie_chart_style o;
     crime_breakdown_graph :=
       store_figure (crime_breakdown_figure o) (crime_breakdown_graph ui);
     major_crime_dropdown_options := major_crime_options o;
     major_crime_dropdown_style := major_crime_style o |}.

Definition with_heatmap (f : Figure) (ui : UI) : UI :=
  {| navigate_n_clicks := navigate_n_clicks ui;
     borough_selection := borough_selection ui;
     major_crime_selection := major_crime_selection ui;
     crime_heatmap := Some f;
     graph_container := graph_container ui;
     crime_trend_graph := crime_trend_graph ui;
     major_crime_pie_chart := major_crime_pie_chart ui;
     major_crime_pie_style := major_crime_pie_style ui;
     crime_breakdown_graph := crime_breakdown_graph ui;
     major_crime_dropdown_options := major_crime_dropdown_options ui;
     major_crime_dropdown_style := major_crime_dropdown_style ui |}.

Definition with_n_clicks (n : Z) (ui : UI) : UI :=
  {| navigate_n_clicks := n;
     borough_selection := borough_selection ui;
     major_crime_selection := major_crime_selection ui;
     crime_heatmap := crime_heatmap ui;
     graph_container := graph_container ui;
     crime_trend_graph := crime_trend_graph ui;
     major_crime_pie_chart := major_crime_pie_chart ui;
     major_crime_pie_style := major_crime_pie_style ui;
     crime_breakdown_graph := crime_breakdown_graph ui;
     major_crime_dropdown_options := major_crime_dropdown_options ui;
     major_crime_dropdown_style := major_crime_dropdown_style ui |}.

Definition with_borough (b : option string) (ui : UI) : UI :=
  {| navigate_n_clicks := navigate_n_clicks ui;
     borough_selection := b;
     major_crime_selection := major_crime_selection ui;
     crime_heatmap := crime_heatmap ui;
     graph_container := graph_container ui;
     crime_trend_graph := crime_trend_graph ui;
     major_crime_pie_chart := major_crime_pie_chart ui;
     major_crime_pie_style := major_crime_pie_style ui;
     crime_breakdown_graph := crime_breakdown_graph ui;
     major_crime_dropdown_options := major_crime_dropdown_options ui;
     major_crime_dropdown_style := major_crime_dropdown_style ui |}.

Definition with_major_crime (m : option string) (ui : UI) : UI :=
  {| navigate_n_clicks := navigate_n_clicks ui;
     borough_selection := borough_selection ui;
     major_crime_selection := m;
     crime_heatmap := crime_heatmap ui;
     graph_container := graph_container ui;
     crime_trend_graph := crime_trend_graph ui;
     major_crime_pie_chart := major_crime_pie_chart ui;
     major_crime_pie_style := major_crime_pie_style ui;
     crime_breakdown_graph := crime_breakdown_graph ui;
     major_crime_dropdown_options := major_crime_dropdown_options ui;
     major_crime_dropdown_style := major_crime_dropdown_style ui |}.

(** What the user can do. *)
Inductive event : Type :=
| SelectBorough (b : option string)
| NavigateClick
| SelectMajorCrime (m : option string).

Section Page.

(** The two globals, fixed once the module is loaded. *)
Variable crime_df : option DataFrame.
Variable geojson_data : option GeoJSON.

(** A callback that raises updates nothing. *)
Definition fire_heatmap (ui : UI) : UI :=
  match update_heatmap crime_df geojson_data (navigate_n_clicks ui) with
  | Ok f => with_heatmap f ui
  | Raise _ => ui
  end.

Definition fire_graphs_and_dropdown (ui : UI) : UI :=
  match update_graphs_and_dropdown crime_df (navigate_n_clicks ui)
          (major_crime_selection ui) (borough_selection ui) with
  | Ok o => apply_outputs o ui
  | Raise _ => ui
  end.

(** The button's [n_clicks] is an [Input] of both callbacks and the
    category dropdown's [value] an [Input] of the combined one; the
    borough dropdown's [value] is only a [State]: changing it fires
    nothing. *)
Definition step (ui : UI) (ev : event) : UI :=
  match ev with
  | SelectBorough b => with_borough b ui
  | NavigateClick =>
      fire_graphs_and_dropdown
        (fire_heatmap (with_n_clicks (navigate_n_clicks ui + 1) ui))
  | SelectMajorCrime m =>
      fire_graphs_and_dropdown (with_major_crime m ui)
  end.

Definition run (ui : UI) (evs : list event) : UI :=
  fold_left step evs ui.

(** On page load both callbacks fire once on the layout. *)
Definition page_load : UI :=
  fire_graphs_and_dropdown (fire_heatmap layout_ui).

Definition reachable (ui : UI) : Prop :=
  exists evs, ui = run page_load evs.

End Page.

(** ** A small data set *)

(** A file in the layout of the police export: category labels first, then
    the borough, then one column per month. *)
Definition sample_csv : DataFrame :=
  {| columns := ["MajorText"; "MinorText"; "BoroughName"; "202201"; "202202"];
     rows :=
       [ [VStr "Theft"; VStr "Shoplifting"; VStr "Camden"; VInt 3; VInt 4];
         [VStr "Theft"; VStr "Bicycle Theft"; VStr "Camden"; VInt 1; VInt 0];
         [VStr "Burglary"; VStr "Domestic"; VStr "Camden"; VInt 2; VInt 5];
         [VStr "Theft"; VStr "Shoplifting"; VStr "Barnet"; VInt 7; VInt 8] ] |}.

Definition sample_wide : DataFrame :=
  rename sample_csv
    [("MajorText", "MajorCrimeCategory"); ("MinorText", "CrimeSubcategory")].

Definition sample_long : DataFrame :=
  {| columns := long_columns;
     rows :=
       [ [VStr "Camden"; VStr "Theft"; VStr "Shoplifting"; VStr "202201"; VInt 3];
         [VStr "Camden"; VStr "Theft"; VStr "Bicycle Theft"; VStr "202201"; VInt 1];
         [VStr "Camden"; VStr "Burglary"; VStr "Domestic"; VStr "202201"; VInt 2];
         [VStr "Barnet"; VStr "Theft"; VStr "Shoplifting"; VStr "202201"; VInt 7];
         [VStr "Camden"; VStr "Theft"; VStr "Shoplifting"; VStr "202202"; VInt 4];
         [VStr "Camden"; VStr "Theft"; VStr "Bicycle Theft"; VStr "202202"; VInt 0];
         [VStr "Camden"; VStr "Burglary"; VStr "Domestic"; VStr "202202"; VInt 5];
         [VStr "Barnet"; VStr "Theft"; VStr "Shoplifting"; VStr "202202"; VInt 8] ] |}.

Definition sample_geojson : GeoJSON :=
  {| features := [ {| properties_name := "Camden" |};
                   {| properties_name := "Barnet" |} ] |}.

(** ** Sums over tables, as the properties speak of them *)

Definition sumZ (l : list Z) : Z := fold_right Z.add 0%Z l.

(** The identifier cells of a row. *)
Definition id_tuple (cols : list string) (r : list value) : list value :=
  map (cell cols r) id_vars.

Fixpoint tuple_eqb (t u : list value) : bool :=
  match t, u with
  | [], [] => true
  | a :: t', b :: u' => value_eqb a b && tuple_eqb t' u'
  | _, _ => false
  end.

(** Long table: the sum of CrimeCount over the rows of one identifier
    tuple. *)
Definition long_tuple_total (long : DataFrame) (t : list value) : Z :=
  sumZ (map (fun r => int_of (cell (columns long) r "CrimeCount"))
            (filter (fun r => tuple_eqb (id_tuple (columns long) r) t)
                    (rows long))).

(** Wide table: the sum of the month cells of one row, read off the row
    cell by cell. *)
Definition wide_row_sum (cols : list string) (r : list value) : Z :=
  sumZ (map (fun p => int_of (snd p))
            (filter (fun p => negb (mem (fst p) id_vars)) (combine cols r))).

Definition wide_tuple_total (wide : DataFrame) (t : list value) : Z :=
  sumZ (map (wide_row_sum (columns wide))
            (filter (fun r => tuple_eqb (id_tuple (columns wide) r) t)
                    (rows wide))).

(** Long table: the total of one borough. *)
Definition borough_total (long : DataFrame) (b : value) : Z :=
  sumZ (map (fun r => int_of (cell (columns long) r "CrimeCount"))
            (group_rows long "BoroughName" b)).

(** The major categories of the rows of one borough, as dropdown
    options. *)
Definition borough_categories (long : DataFrame) (borough : string)
    : list value :=
  map (fun r => cell (columns long) r "MajorCrimeCategory")
      (filter (fun r => value_eqb (cell (columns long) r "BoroughName")
                                  (VStr borough))
              (rows long)).

(** Whether an output carries a figure rather than [dash.no_update]. *)
Definition is_figure (o : output Figure) : bool :=
  match o with no_update => false | new_value _ => true end.

(** ** The borough dropdown, [get_borough_options] *)

Definition get_borough_options (df : option DataFrame)
    : result (list DropdownOption) :=
  match df with
  | Some d =>
      boroughs <- column d "BoroughName" ;;
      Ok (map (fun borough => {| label := borough; option_value := borough |})
              (unique boroughs))
  | None => Ok [ {| label := VStr "No data available";
                    option_value := VStr "" |} ]
  end.

(** ** Loading the module *)

(** The module's top-level statements, in order: the two loaders, the
    reshaper on the loaded table, the borough options.  An exception in
    any of them ends the import. *)
Record Globals : Type := mkGlobals {
  global_crime_df : option DataFrame;
  global_geojson_data : option GeoJSON;
  global_borough_options : list DropdownOption
}.

Definition load_module (crime_csv : file DataFrame)
    (geojson_path : file GeoJSON) : result Globals :=
  loaded <- load_crime_data crime_csv ;;
  geojson_data <- load_geojson geojson_path ;;
  crime_df <- melt_crime_data loaded ;;
  borough_options <- get_borough_options crime_df ;;
  Ok {| global_crime_df := crime_df;
        global_geojson_data := geojson_data;
        global_borough_options := borough_options |}.

(** ** Totals of the long table, as the charts are read *)

Definition crime_count_total (cols : list string) (rs : list (list value))
    : Z :=
  sumZ (map (fun r => int_of (cell cols r "CrimeCount")) rs).

(** The rows of one borough. *)
Definition borough_rows (long : DataFrame) (borough : string)
    : list (list value) :=
  filter (fun r => value_eqb (cell (columns long) r "BoroughName")
                             (VStr borough))
         (rows long).

(** The total of one borough in one month, over all categories. *)
Definition month_total (long : DataFrame) (borough : string) (mo : value)
    : Z :=
  crime_count_total (columns long)
    (filter (fun r => value_eqb (cell (columns long) r "Month") mo)
            (borough_rows long borough)).

(** The total of one borough in one major category, over all months and
    subcategories. *)
Definition category_total (long : DataFrame) (borough : string) (mc : value)
    : Z :=
  crime_count_total (columns long)
    (filter (fun r => value_eqb (cell (columns long) r "MajorCrimeCategory") mc)
            (borough_rows long borough)).

(** The key of a long row: borough, major category, subcategory, month. *)
Definition record_key (cols : list string) (r : list value) : list value :=
  map (cell cols r)
      ["BoroughName"; "MajorCrimeCategory"; "CrimeSubcategory"; "Month"].

(** A table the callbacks can work on: absent, or a typed long table. *)
Definition usable (crime_df : option DataFrame) : bool :=
  match crime_df with
  | None => true
  | Some df => long_format df
  end.

(** What holds of the page at every moment: the three visibility styles
    move together; a hidden dashboard offers no categories; and either no
    chart has ever been drawn and the dashboard is hidden, or the button
    has been clicked and the crime table is there. *)
Definition dashboard_invariant (crime_df : option DataFrame) (ui : UI)
    : Prop :=
  (0 <= navigate_n_clicks ui)%Z /\
  major_crime_pie_style ui = graph_container ui /\
  major_crime_dropdown_style ui = graph_container ui /\
  (graph_container ui = display_none ->
   major_crime_dropdown_options ui = []) /\
  ((crime_trend_graph ui = None /\ major_crime_pie_chart ui = None /\
    crime_breakdown_graph ui = None /\ graph_container ui = display_none)
   \/ ((0 < navigate_n_clicks ui)%Z /\ crime_df <> None)).

(** * Properties *)

(** ** General facts *)

Lemma mapM_Ok {A B : Type} (f : A -> result B) (g : A -> B) (l : list A) :
  (forall a, In a l -> f a = Ok (g a)) -> mapM f l = Ok (map g l).
Proof.
  induction l as [|a l IH]; intros H; simpl.
  - reflexivity.
  - rewrite (H a (or_introl eq_refl)); simpl.
    rewrite IH by (intros b Hb; apply H; now right).
    reflexivity.
Qed.

Lemma value_eqb_eq (a b : value) : value_eqb a b = true <-> a = b.
Proof.
  destruct a as [s|x], b as [t|y]; simpl; split; intros H;
    try discriminate; try congruence.
  - apply String.eqb_eq in H; now subst.
  - injection H as ->; apply String.eqb_refl.
  - apply Z.eqb_eq in H; now subst.
  - injection H as ->; apply Z.eqb_refl.
Qed.

Lemma value_eqb_refl (a : value) : value_eqb a a = true.
Proof. now apply value_eqb_eq. Qed.

Lemma mem_In (c : string) (l : list string) : mem c l = true <-> In c l.
Proof.
  unfold mem; rewrite existsb_exists; split.
  - intros [x [Hx He]]; apply String.eqb_eq in He; now subst.
  - intros H; exists c; split; [assumption | apply String.eqb_refl].
Qed.

Lemma labels_eqb_eq (l1 l2 : list string) : labels_eqb l1 l2 = true -> l1 = l2.
Proof.
  revert l2; induction l1 as [|x l1 IH]; intros [|y l2]; simpl;
    try discriminate; try reflexivity.
  intros H; apply andb_true_iff in H as [Hx Hl].
  apply String.eqb_eq in Hx; subst; f_equal; now apply IH.
Qed.

Lemma long_format_columns (df : DataFrame) :
  long_format df = true -> columns df = long_columns.
Proof.
  unfold long_format; intros H; apply andb_true_iff in H as [H _].
  now apply labels_eqb_eq.
Qed.

Lemma long_format_rows (df : DataFrame) :
  long_format df = true -> Forall (fun r => long_row_ok r = true) (rows df).
Proof.
  unfold long_format; intros H; apply andb_true_iff in H as [_ H].
  apply Forall_forall; now apply forallb_forall.
Qed.

(** A typed long row, taken apart. *)
Lemma long_row_ok_inv (r : list value) :
  long_row_ok r = true ->
  exists b m s mo n, r = [VStr b; VStr m; VStr s; VStr mo; VInt n].
Proof.
  destruct r as [|[b|] [|[m|] [|[s|] [|[mo|] [|[|n] [|]]]]]]; simpl;
    try discriminate.
  intros _; now exists b, m, s, mo, n.
Qed.

(** ** The reshaper on missing data *)

(** C8: for the input [None] the reshaper [melt_crime_data] returns [None]
    unchanged and raises nothing. *)
Theorem melt_crime_data_None : melt_crime_data None = Ok None.
Proof. reflexivity. Qed.

(** ** The loaders *)

(** [load_crime_data] answers [None] for a missing or an empty file and the
    renamed table otherwise; it never raises. *)
Lemma load_crime_data_total (f : file DataFrame) :
  exists r, load_crime_data f = Ok r /\
    match f with
    | Absent | Empty => r = None
    | Holds df =>
        r = Some (rename df [("MajorText", "MajorCrimeCategory");
                             ("MinorText", "CrimeSubcategory")])
    end.
Proof. destruct f; eexists; split; reflexivity. Qed.

(** [load_geojson] answers [None] for a missing file and the data for a
    file with content. *)
Lemma load_geojson_absent_or_content :
  load_geojson Absent = Ok None /\
  forall g, load_geojson (Holds g) = Ok (Some g).
Proof. split; reflexivity. Qed.

(** C3: each loader should return the data, or [None] for an absent or
    empty file, and never raise.  On an empty boundary file [load_geojson]
    raises: [json.load] fails with [JSONDecodeError], for which there is no
    [except] clause. *)
Theorem load_geojson_empty_file_raises :
  load_geojson Empty = Raise JSONDecodeError.
Proof. reflexivity. Qed.

(** ** The heatmap on missing data *)

(** The default message of [empty_figure] is the other text. *)
Lemma empty_figure_default_message :
  placeholder_message empty_figure_default = Some "No data available".
Proof. reflexivity. Qed.

(** C2, as stated, fails: with both data sets missing the message is
    "Error: No data available", not "No data available". *)
Lemma update_heatmap_missing_message_is_error_text :
  exists fig,
    update_heatmap None None 1 = Ok fig /\
    placeholder_message fig = Some "Error: No data available" /\
    placeholder_message fig <> Some "No data available".
Proof.
  eexists; split; [reflexivity|]; split; [reflexivity|]; discriminate.
Qed.

(** C2, amended: whenever the crime table or the boundary data is [None]
    the heatmap callback returns the placeholder figure whose title and
    single annotation are exactly "Error: No data available"; and no
    invocation at all returns a figure with the message "No data
    available". *)
Theorem update_heatmap_missing_data
    (crime_df : option DataFrame) (geojson_data : option GeoJSON)
    (n_clicks : Z) :
  crime_df = None \/ geojson_data = None ->
  update_heatmap crime_df geojson_data n_clicks
    = Ok (empty_figure "Error: No data available") /\
  placeholder_message (empty_figure "Error: No data available")
    = Some "Error: No data available" /\
  plotted_rows (empty_figure "Error: No data available") = [] /\
  forall crime geo n fig,
    update_heatmap crime geo n = Ok fig ->
    placeholder_message fig <> Some "No data available".
Proof.
  intros H; repeat split.
  - destruct H as [-> | ->]; [reflexivity|].
    destruct crime_df; reflexivity.
  - intros crime geo n fig Hfig.
    destruct crime as [df|], geo as [gj|]; simpl in Hfig;
      try (injection Hfig as <-; discriminate).
    destruct (groupby_sum df "BoroughName" ["CrimeCount"]) as [s|e];
      simpl in Hfig; [|discriminate].
    unfold px_choropleth_map in Hfig.
    destruct (require_columns s ["BoroughName"; "CrimeCount"]);
      simpl in Hfig; [|discriminate].
    injection Hfig as <-; discriminate.
Qed.

Lemma update_heatmap_missing_data_witness :
  update_heatmap None (Some sample_geojson) 1
    = Ok (empty_figure "Error: No data available").
Proof.
  apply (update_heatmap_missing_data None (Some sample_geojson) 1).
  left; reflexivity.
Defined.

(** ** The combined callback with no borough *)

(** C6: with no borough selected ([None], or the empty string) the
    callback returns at once: container, pie chart and category dropdown
    hidden, no category options, and [dash.no_update] for the three
    figures and for the category value; nothing is aggregated and nothing
    is raised, whatever the table, the click count and the category. *)
Theorem update_graphs_and_dropdown_no_borough
    (crime_df : option DataFrame) (n_clicks : Z)
    (selected_major_crime selected_borough : option string) :
  truthy selected_borough = false ->
  exists o,
    update_graphs_and_dropdown crime_df n_clicks selected_major_crime
      selected_borough = Ok o /\
    o = hidden_outputs /\
    graph_container_style o = display_none /\
    crime_trend_figure o = no_update /\
    pie_chart_figure o = no_update /\
    pie_chart_style o = display_none /\
    crime_breakdown_figure o = no_update /\
    major_crime_options o = [] /\
    major_crime_style o = display_none /\
    major_crime_value o = no_update.
Proof.
  intros H; exists hidden_outputs; split.
  - unfold update_graphs_and_dropdown; rewrite H; simpl.
    now rewrite orb_true_r.
  - repeat split.
Qed.

Lemma update_graphs_and_dropdown_no_borough_witness :
  exists o,
    update_graphs_and_dropdown (Some sample_long) 1 (Some "Theft") None
      = Ok o /\
    o = hidden_outputs /\
    graph_container_style o = display_none /\
    crime_trend_figure o = no_update /\
    pie_chart_figure o = no_update /\
    pie_chart_style o = display_none /\
    crime_breakdown_figure o = no_update /\
    major_crime_options o = [] /\
    major_crime_style o = display_none /\
    major_crime_value o = no_update.
Proof.
  apply (update_graphs_and_dropdown_no_borough
           (Some sample_long) 1 (Some "Theft") None).
  reflexivity.
Defined.

(** ** Columns of a typed long table and their sums *)

Lemma mapM_exists {A B : Type} (f : A -> result B) (l : list A) :
  (forall a, In a l -> exists b, f a = Ok b) ->
  exists bs, mapM f l = Ok bs /\ List.length bs = List.length l.
Proof.
  induction l as [|a l IH]; intros H; simpl.
  - now exists [].
  - destruct (H a (or_introl eq_refl)) as [b Hb].
    destruct IH as [bs [Hbs Hlen]]; [intros x Hx; apply H; now right|].
    exists (b :: bs); rewrite Hb, Hbs; simpl; split; congruence.
Qed.

Lemma sum_cells_text (l : list value) :
  forallb is_str l = true ->
  exists v, sum_cells l = Ok v /\ (l <> [] -> is_str v = true).
Proof.
  induction l as [|v l IH]; intros H.
  - exists (VInt 0); split; [reflexivity | congruence].
  - simpl in H; apply andb_true_iff in H as [Hv Hl].
    destruct l as [|w l].
    + exists v; split; [reflexivity | now intros _].
    + destruct (IH Hl) as [s [Hs Hstr]].
      destruct v as [a|]; [|discriminate].
      specialize (Hstr ltac:(discriminate)).
      destruct s as [t|]; [|discriminate].
      exists (VStr (a ++ t)); split; [|now intros _].
      change (sum_cells (VStr a :: w :: l))
        with (bind (sum_cells (w :: l)) (fun s => add_cells (VStr a) s)).
      now rewrite Hs.
Qed.

Lemma sum_cells_counts (l : list value) :
  forallb is_int l = true ->
  sum_cells l = Ok (VInt (sumZ (map int_of l))).
Proof.
  induction l as [|v l IH]; intros H; [reflexivity|].
  simpl in H; apply andb_true_iff in H as [Hv Hl].
  destruct v as [|x]; [discriminate|].
  destruct l as [|w l].
  - simpl; now rewrite Z.add_0_r.
  - change (sum_cells (VInt x :: w :: l))
      with (bind (sum_cells (w :: l)) (fun s => add_cells (VInt x) s)).
    now rewrite (IH Hl).
Qed.

Lemma In_long_columns (c : string) :
  In c long_columns ->
  c = "BoroughName" \/ c = "MajorCrimeCategory" \/ c = "CrimeSubcategory"
  \/ c = "Month" \/ c = "CrimeCount".
Proof.
  unfold long_columns; simpl; intros H; intuition auto.
Qed.

(** In a typed long table every column is all text or all counts. *)
Lemma long_column_one_type (c : string) (rs : list (list value)) :
  In c long_columns ->
  Forall (fun r => long_row_ok r = true) rs ->
  forallb is_str (map (fun r => cell long_columns r c) rs) = true \/
  forallb is_int (map (fun r => cell long_columns r c) rs) = true.
Proof.
  intros Hc Hrs; apply In_long_columns in Hc.
  destruct Hc as [-> | [-> | [-> | [-> | ->]]]];
    [left | left | left | left | right];
    (induction Hrs as [|r rs Hr _ IH]; [reflexivity|];
     apply long_row_ok_inv in Hr as (b & m & s & mo & n & ->);
     simpl; exact IH).
Qed.

Lemma long_column_sum (c : string) (rs : list (list value)) :
  In c long_columns ->
  Forall (fun r => long_row_ok r = true) rs ->
  exists v, sum_cells (map (fun r => cell long_columns r c) rs) = Ok v.
Proof.
  intros Hc Hrs.
  destruct (long_column_one_type c rs Hc Hrs) as [H | H].
  - destruct (sum_cells_text _ H) as [v [Hv _]]; now exists v.
  - eexists; now apply sum_cells_counts.
Qed.

Lemma long_counts_are_int (rs : list (list value)) :
  Forall (fun r => long_row_ok r = true) rs ->
  forallb is_int (map (fun r => cell long_columns r "CrimeCount") rs) = true.
Proof.
  induction 1 as [|r rs Hr _ IH]; [reflexivity|].
  apply long_row_ok_inv in Hr as (b & m & s & mo & n & ->).
  simpl; exact IH.
Qed.

Lemma index_of_In (c : string) (l : list string) :
  In c l -> exists i, index_of c l = Some i.
Proof.
  induction l as [|x l IH]; intros H; [contradiction|].
  simpl; destruct (String.eqb_spec c x) as [->|Hne].
  - now exists 0%nat.
  - destruct H as [H | H]; [congruence|].
    destruct (IH H) as [i ->]; now exists (S i).
Qed.

Lemma column_In (df : DataFrame) (c : string) :
  In c (columns df) -> exists l, column df c = Ok l.
Proof.
  intros H; unfold column.
  destruct (index_of_In c _ H) as [i ->]; eauto.
Qed.

Lemma Forall_filter_rows (P : list value -> Prop) (f : list value -> bool)
    (rs : list (list value)) :
  Forall P rs -> Forall P (filter f rs).
Proof.
  induction 1 as [|r rs Hr _ IH]; simpl; [constructor|].
  destruct (f r); [constructor|]; assumption.
Qed.

(** Grouped sums of a typed long table never raise. *)
Lemma groupby_sum_long (rs : list (list value)) (key : string)
    (value_cols : list string) :
  Forall (fun r => long_row_ok r = true) rs ->
  In key long_columns ->
  (forall c, In c value_cols -> In c long_columns) ->
  exists out,
    groupby_sum {| columns := long_columns; rows := rs |} key value_cols
      = Ok {| columns := key :: value_cols; rows := out |}.
Proof.
  intros Hrs Hkey Hcols; unfold groupby_sum.
  destruct (column_In {| columns := long_columns; rows := rs |} key Hkey)
    as [keys ->]; simpl bind.
  destruct (mapM_exists (column {| columns := long_columns; rows := rs |})
              value_cols) as [cs [-> _]];
    [intros c Hc; apply column_In, Hcols, Hc|]; simpl bind.
  match goal with
  | |- context [mapM ?f (sort_values (unique keys))] =>
      destruct (mapM_exists f (sort_values (unique keys))) as [out [-> _]]
  end.
  - intros k _.
    match goal with
    | |- context [mapM ?g value_cols] =>
        destruct (mapM_exists g value_cols) as [sums [-> _]]
    end.
    + intros c Hc; apply long_column_sum; [now apply Hcols|].
      now apply Forall_filter_rows.
    + simpl; eauto.
  - simpl; eauto.
Qed.

(** ** The combined callback when the dashboard is shown *)

(** With the button clicked, a typed long table and a borough chosen, the
    callback goes through: it shows everything, draws the three figures,
    lists the borough's categories and clears the category value. *)
Lemma update_graphs_and_dropdown_shown (rs : list (list value)) (n_clicks : Z)
    (selected_major_crime : option string) (borough : string) :
  n_clicks <> 0%Z ->
  Forall (fun r => long_row_ok r = true) rs ->
  borough <> "" ->
  let df := {| columns := long_columns; rows := rs |} in
  let filtered :=
    filter (fun r => value_eqb (cell long_columns r "BoroughName")
                               (VStr borough)) rs in
  exists trend_fig pie_chart_fig,
    update_graphs_and_dropdown (Some df) n_clicks selected_major_crime
      (Some borough)
    = Ok {| graph_container_style := display_block;
            crime_trend_figure := new_value trend_fig;
            pie_chart_figure := new_value pie_chart_fig;
            pie_chart_style := display_block;
            crime_breakdown_figure :=
              new_value
                (match selected_major_crime with
                 | Some major =>
                     if String.eqb major "" then px_line_empty
                     else
                       LineChart
                         (Some {| columns := long_columns;
                                  rows :=
                                    filter
                                      (fun r =>
                                         value_eqb
                                           (cell long_columns r
                                              "MajorCrimeCategory")
                                           (VStr major))
                                      filtered |})
                         (Some "Month") (Some "CrimeCount")
                         (Some "CrimeSubcategory")
                         (Some ("Crime Trend Over Time for " ++ major
                                ++ " in " ++ borough)%string)
                 | None => px_line_empty
                 end);
            major_crime_options :=
              map (fun mc => {| label := mc; option_value := mc |})
                  (unique (borough_categories df borough));
            major_crime_style := display_block;
            major_crime_value := new_value None |}.
Proof.
  intros Hn Hrs Hb df filtered.
  assert (Hf : Forall (fun r => long_row_ok r = true) filtered)
    by now apply Forall_filter_rows.
  destruct (groupby_sum_long filtered "Month"
              ["BoroughName"; "MajorCrimeCategory"; "CrimeSubcategory";
               "CrimeCount"] Hf) as [trend_rows Htrend];
    [simpl; tauto | simpl; tauto |].
  destruct (groupby_sum_long filtered "MajorCrimeCategory"
              ["BoroughName"; "CrimeSubcategory"; "Month"; "CrimeCount"] Hf)
    as [pie_rows Hpie]; [simpl; tauto | simpl; tauto |].
  exists (LineChart
            (Some {| columns := "Month" ::
                       ["BoroughName"; "MajorCrimeCategory";
                        "CrimeSubcategory"; "CrimeCount"];
                     rows := trend_rows |})
            (Some "Month") (Some "CrimeCount") None
            (Some ("Overall Crime Trend in " ++ borough ++ " Over Time")%string)).
  exists (PieChart
            {| columns := "MajorCrimeCategory" ::
                 ["BoroughName"; "CrimeSubcategory"; "Month"; "CrimeCount"];
               rows := pie_rows |}
            "MajorCrimeCategory" "CrimeCount"
            ("Count of Each Major Crime Type in " ++ borough)%string).
  unfold update_graphs_and_dropdown.
  apply Z.eqb_neq in Hn; rewrite Hn.
  apply String.eqb_neq in Hb.
  unfold truthy at 1; rewrite Hb.
  cbn [is_none negb orb].
  change (filter_eq df "BoroughName" borough)
    with (Ok {| columns := long_columns; rows := filtered |}).
  cbn [bind].
  change (other_columns {| columns := long_columns; rows := filtered |} "Month")
    with ["BoroughName"; "MajorCrimeCategory"; "CrimeSubcategory"; "CrimeCount"].
  rewrite Htrend; cbn [bind].
  change (other_columns {| columns := long_columns; rows := filtered |}
            "MajorCrimeCategory")
    with ["BoroughName"; "CrimeSubcategory"; "Month"; "CrimeCount"].
  rewrite Hpie.
  destruct selected_major_crime as [major|]; [|reflexivity].
  unfold truthy; destruct (String.eqb major ""); reflexivity.
Qed.

Ltac bind_inv H :=
  repeat match type of H with
         | bind ?m _ = Ok _ =>
             let E := fresh "E" in
             destruct m eqn:E; cbn [bind] in H; [|discriminate H]
         end.

(** Whatever the inputs, outputs that show the container carry a cleared
    category value. *)
Lemma visible_outputs_clear_category (crime_df : option DataFrame)
    (n_clicks : Z) (selected_major_crime selected_borough : option string)
    (o : Outputs) :
  update_graphs_and_dropdown crime_df n_clicks selected_major_crime
    selected_borough = Ok o ->
  graph_container_style o = display_block ->
  major_crime_value o = new_value None.
Proof.
  unfold update_graphs_and_dropdown; intros H Hvis.
  destruct ((n_clicks =? 0)%Z || is_none crime_df
            || negb (truthy selected_borough)).
  - injection H as <-; discriminate.
  - destruct crime_df as [df|], selected_borough as [borough|];
      try (injection H as <-; discriminate).
    bind_inv H.
    injection H as <-; reflexivity.
Qed.

(** C10: every run of the callback that shows the dashboard (button
    clicked at least once, table present, borough chosen) returns [None]
    for the category dropdown's value, also when the run was caused by the
    user choosing a category: such a run goes through, shows the
    container and clears the value; and no run at all shows the container
    without clearing it. *)
Theorem update_graphs_and_dropdown_resets_category (df : DataFrame)
    (n_clicks : Z) (selected_major_crime selected_borough : option string) :
  n_clicks <> 0%Z ->
  long_format df = true ->
  truthy selected_borough = true ->
  (exists o,
     update_graphs_and_dropdown (Some df) n_clicks selected_major_crime
       selected_borough = Ok o /\
     graph_container_style o = display_block /\
     major_crime_value o = new_value None) /\
  (forall crime n major borough o,
     update_graphs_and_dropdown crime n major borough = Ok o ->
     graph_container_style o = display_block ->
     major_crime_value o = new_value None).
Proof.
  intros Hn Hlong Hb; split;
    [| intros crime n major b o; apply visible_outputs_clear_category].
  destruct selected_borough as [borough|]; [|discriminate].
  assert (Hne : borough <> "")
    by (intros ->; discriminate).
  destruct df as [cols rs].
  pose proof (long_format_columns _ Hlong) as Hc; simpl in Hc; subst cols.
  pose proof (long_format_rows _ Hlong) as Hrs; simpl in Hrs.
  destruct (update_graphs_and_dropdown_shown rs n_clicks selected_major_crime
              borough Hn Hrs Hne) as (t & p & ->).
  eexists; split; [reflexivity|]; split; reflexivity.
Qed.

Lemma update_graphs_and_dropdown_resets_category_witness :
  exists o,
    update_graphs_and_dropdown (Some sample_long) 2 (Some "Theft")
      (Some "Camden") = Ok o /\
    graph_container_style o = display_block /\
    major_crime_value o = new_value None.
Proof.
  apply (update_graphs_and_dropdown_resets_category sample_long 2
           (Some "Theft") (Some "Camden")).
  - discriminate.
  - reflexivity.
  - reflexivity.
Defined.

(** Before the first click, without a table or without a borough the
    callback returns the hidden outputs. *)
Lemma update_graphs_and_dropdown_hidden (crime_df : option DataFrame)
    (n_clicks : Z) (selected_major_crime selected_borough : option string) :
  n_clicks = 0%Z \/ crime_df = None \/ truthy selected_borough = false ->
  update_graphs_and_dropdown crime_df n_clicks selected_major_crime
    selected_borough = Ok hidden_outputs.
Proof.
  unfold update_graphs_and_dropdown; intros [-> | [-> | ->]].
  - reflexivity.
  - now rewrite orb_true_r.
  - now rewrite orb_true_r.
Qed.

(** ** The breakdown without a category *)

(** C9, as stated, fails: before the first click the callback is run with
    a borough and no category and returns [dash.no_update] for the
    breakdown graph, not a figure. *)
Lemma update_graphs_and_dropdown_unclicked_breakdown :
  exists o,
    update_graphs_and_dropdown (Some sample_long) 0 None (Some "Camden")
      = Ok o /\
    crime_breakdown_figure o = no_update /\
    is_figure (crime_breakdown_figure o) = false /\
    crime_breakdown_figure o <> new_value px_line_empty.
Proof. eexists; repeat split; discriminate. Qed.

(** C9, amended: when the button has been clicked at least once and the
    crime table is present, every run of the callback with a borough
    chosen and no category chosen ([None] or the empty string) returns for
    the breakdown graph the figure [px.line()], which is given no data
    frame and so draws no row of data.  Before the first click, or without
    a table, such a run returns [dash.no_update] for the breakdown graph. *)
Theorem update_graphs_and_dropdown_breakdown_empty (df : DataFrame)
    (n_clicks : Z) (selected_major_crime selected_borough : option string) :
  truthy selected_borough = true ->
  truthy selected_major_crime = false ->
  (n_clicks <> 0%Z ->
   long_format df = true ->
   exists o,
     update_graphs_and_dropdown (Some df) n_clicks selected_major_crime
       selected_borough = Ok o /\
     crime_breakdown_figure o = new_value px_line_empty /\
     plotted_rows px_line_empty = []) /\
  (forall crime_df,
     n_clicks = 0%Z \/ crime_df = None ->
     exists o,
       update_graphs_and_dropdown crime_df n_clicks selected_major_crime
         selected_borough = Ok o /\
       crime_breakdown_figure o = no_update).
Proof.
  intros Hb Hm; split.
  - intros Hn Hlong.
    destruct selected_borough as [borough|]; [|discriminate].
    assert (Hne : borough <> "") by (intros ->; discriminate).
    destruct df as [cols rs].
    pose proof (long_format_columns _ Hlong) as Hc; simpl in Hc; subst cols.
    pose proof (long_format_rows _ Hlong) as Hrs; simpl in Hrs.
    destruct (update_graphs_and_dropdown_shown rs n_clicks
                selected_major_crime borough Hn Hrs Hne) as (t & p & ->).
    eexists; split; [reflexivity|]; split; [|reflexivity].
    destruct selected_major_crime as [major|]; [|reflexivity].
    simpl in Hm; apply negb_false_iff in Hm.
    simpl; now rewrite Hm.
  - intros crime_df H; exists hidden_outputs; split; [|reflexivity].
    apply update_graphs_and_dropdown_hidden; tauto.
Qed.

Lemma update_graphs_and_dropdown_breakdown_empty_witness :
  exists o,
    update_graphs_and_dropdown (Some sample_long) 1 None (Some "Camden")
      = Ok o /\
    crime_breakdown_figure o = new_value px_line_empty /\
    plotted_rows px_line_empty = [].
Proof.
  apply (update_graphs_and_dropdown_breakdown_empty sample_long 1 None
           (Some "Camden")).
  - reflexivity.
  - reflexivity.
  - discriminate.
  - reflexivity.
Defined.

(** ** Distinct values *)

Lemma unique_In (v : value) (l : list value) : In v (unique l) <-> In v l.
Proof.
  induction l as [|w l IH]; simpl; [tauto|].
  rewrite filter_In, IH, negb_true_iff.
  split.
  - intros [H | [H _]]; auto.
  - intros [H | H]; [now left|].
    destruct (value_eqb v w) eqn:E.
    + left; symmetry; now apply value_eqb_eq.
    + right; split; [assumption | reflexivity].
Qed.

Lemma unique_NoDup (l : list value) : NoDup (unique l).
Proof.
  induction l as [|w l IH]; simpl; constructor.
  - rewrite filter_In, value_eqb_refl; intros [_ H]; discriminate.
  - now apply NoDup_filter.
Qed.

(** ** The category options *)

(** C5, as stated, fails: before the first click the callback, run with a
    borough of the table, returns no options although the borough has two
    categories. *)
Lemma update_graphs_and_dropdown_unclicked_options :
  exists o,
    update_graphs_and_dropdown (Some sample_long) 0 None (Some "Camden")
      = Ok o /\
    major_crime_options o = [] /\
    unique (borough_categories sample_long "Camden")
      = [VStr "Theft"; VStr "Burglary"] /\
    map option_value (major_crime_options o)
      <> unique (borough_categories sample_long "Camden").
Proof. eexists; repeat split; discriminate. Qed.

(** C5, amended: when the button has been clicked at least once, for every
    long-format crime table and every chosen (non-empty) borough the
    callback's category options are exactly the distinct
    MajorCrimeCategory values of the rows whose BoroughName is that
    borough, in order of first appearance: label and value of an option
    are the category, no category is listed twice, and a category is
    listed if and only if some row of the borough has it.  Before the
    first click the callback returns no options. *)
Theorem update_graphs_and_dropdown_category_options (df : DataFrame)
    (n_clicks : Z) (selected_major_crime : option string)
    (borough : string) :
  long_format df = true ->
  borough <> "" ->
  (n_clicks <> 0%Z ->
   exists o,
     update_graphs_and_dropdown (Some df) n_clicks selected_major_crime
       (Some borough) = Ok o /\
     map option_value (major_crime_options o)
       = unique (borough_categories df borough) /\
     map label (major_crime_options o)
       = map option_value (major_crime_options o) /\
     NoDup (map option_value (major_crime_options o)) /\
     forall mc,
       In mc (map option_value (major_crime_options o)) <->
       exists r, In r (rows df) /\
                 cell (columns df) r "BoroughName" = VStr borough /\
                 cell (columns df) r "MajorCrimeCategory" = mc) /\
  (n_clicks = 0%Z ->
   exists o,
     update_graphs_and_dropdown (Some df) n_clicks selected_major_crime
       (Some borough) = Ok o /\
     major_crime_options o = []).
Proof.
  intros Hlong Hne; split.
  - intros Hn.
    destruct df as [cols rs].
    pose proof (long_format_columns _ Hlong) as Hc; simpl in Hc; subst cols.
    pose proof (long_format_rows _ Hlong) as Hrs; simpl in Hrs.
    destruct (update_graphs_and_dropdown_shown rs n_clicks
                selected_major_crime borough Hn Hrs Hne) as (t & p & ->).
    eexists; split; [reflexivity|].
    cbn [major_crime_options].
    rewrite !map_map; cbn [option_value label]; rewrite map_id.
    split; [reflexivity|]; split; [reflexivity|]; split;
      [apply unique_NoDup|].
    intros mc; rewrite unique_In.
    unfold borough_categories; cbn [columns rows].
    rewrite in_map_iff; split.
    + intros (r & Hmc & Hr); apply filter_In in Hr as [Hr Hb].
      apply value_eqb_eq in Hb; now exists r.
    + intros (r & Hr & Hb & Hmc); exists r; split; [assumption|].
      apply filter_In; split; [assumption|].
      now apply value_eqb_eq.
  - intros Hn; exists hidden_outputs; split; [|reflexivity].
    apply update_graphs_and_dropdown_hidden; now left.
Qed.

Lemma update_graphs_and_dropdown_category_options_witness :
  exists o,
    update_graphs_and_dropdown (Some sample_long) 1 None (Some "Camden")
      = Ok o /\
    map option_value (major_crime_options o)
      = unique (borough_categories sample_long "Camden").
Proof.
  destruct (update_graphs_and_dropdown_category_options sample_long 1 None
              "Camden") as [Hshown _].
  - reflexivity.
  - discriminate.
  - destruct Hshown as (o & Ho & Hopt & _); [discriminate|].
    exists o; split; assumption.
Defined.

(** ** Sorted group keys *)

Lemma insert_sorted_perm (v : value) (l : list value) :
  Permutation (insert_sorted v l) (v :: l).
Proof.
  induction l as [|w l IH]; simpl; [reflexivity|].
  destruct (value_leb v w); [reflexivity|].
  rewrite IH; apply perm_swap.
Qed.

Lemma sort_values_perm (l : list value) : Permutation (sort_values l) l.
Proof.
  induction l as [|v l IH]; simpl; [reflexivity|].
  rewrite insert_sorted_perm; now constructor.
Qed.

(** ** The heatmap totals *)

(** The grouped sum of CrimeCount by borough, row by row. *)
Lemma groupby_borough_sum (rs : list (list value)) :
  Forall (fun r => long_row_ok r = true) rs ->
  let df := {| columns := long_columns; rows := rs |} in
  groupby_sum df "BoroughName" ["CrimeCount"]
  = Ok {| columns := ["BoroughName"; "CrimeCount"];
          rows :=
            map (fun b => [b; VInt (borough_total df b)])
                (sort_values
                   (unique (map (fun r => cell long_columns r "BoroughName")
                                rs))) |}.
Proof.
  intros Hrs df; unfold groupby_sum.
  change (column df "BoroughName")
    with (Ok (map (fun r => cell long_columns r "BoroughName") rs)).
  cbn [bind].
  change (mapM (column df) ["CrimeCount"])
    with (Ok [map (fun r => cell long_columns r "CrimeCount") rs]).
  cbn [bind].
  rewrite (mapM_Ok _ (fun b => [b; VInt (borough_total df b)])).
  - reflexivity.
  - intros k _; cbn [mapM bind].
    rewrite sum_cells_counts.
    + unfold borough_total; rewrite map_map; reflexivity.
    + apply long_counts_are_int.
      now apply Forall_filter_rows.
Qed.

(** C7: for every long-format crime table, with the boundary data present,
    the heatmap callback draws the table grouped by BoroughName with
    CrimeCount summed over all months and categories: the frame it plots
    has one row per distinct borough of the table (no borough twice, none
    missing, none added), and the row of a borough holds the sum of
    CrimeCount over all rows of that borough. *)
Theorem update_heatmap_borough_totals (df : DataFrame) (gj : GeoJSON)
    (n_clicks : Z) :
  long_format df = true ->
  exists crime_summary,
    update_heatmap (Some df) (Some gj) n_clicks
      = Ok (ChoroplethMap crime_summary gj "BoroughName" "properties.name"
              "CrimeCount" "Crime Heatmap of London") /\
    columns crime_summary = ["BoroughName"; "CrimeCount"] /\
    NoDup (map (fun row => cell (columns crime_summary) row "BoroughName")
               (rows crime_summary)) /\
    (forall b,
       In b (map (fun row => cell (columns crime_summary) row "BoroughName")
                 (rows crime_summary)) <->
       exists r, In r (rows df) /\ cell (columns df) r "BoroughName" = b) /\
    (forall row, In row (rows crime_summary) ->
       row = [cell (columns crime_summary) row "BoroughName";
              VInt (borough_total df
                      (cell (columns crime_summary) row "BoroughName"))]).
Proof.
  intros Hlong.
  destruct df as [cols rs].
  pose proof (long_format_columns _ Hlong) as Hc; simpl in Hc; subst cols.
  pose proof (long_format_rows _ Hlong) as Hrs; simpl in Hrs.
  eexists; split.
  - unfold update_heatmap; rewrite (groupby_borough_sum rs Hrs).
    reflexivity.
  - cbn [columns rows].
    set (keys := sort_values
                   (unique (map (fun r => cell long_columns r "BoroughName")
                                rs))).
    assert (Hkeys :
      map (fun row => cell ["BoroughName"; "CrimeCount"] row "BoroughName")
          (map (fun b =>
                  [b; VInt (borough_total
                              {| columns := long_columns; rows := rs |} b)])
               keys) = keys)
      by (rewrite map_map; apply map_id).
    rewrite Hkeys.
    split; [reflexivity|]; split; [|split].
    + eapply Permutation_NoDup;
        [symmetry; apply sort_values_perm | apply unique_NoDup].
    + intros b; unfold keys.
      rewrite (Permutation_in' (eq_refl b) (sort_values_perm _)).
      rewrite unique_In, in_map_iff.
      split; intros (r & H1 & H2); exists r; tauto.
    + intros row Hrow; apply in_map_iff in Hrow as (b & <- & _).
      reflexivity.
Qed.

Lemma update_heatmap_borough_totals_witness :
  exists crime_summary,
    update_heatmap (Some sample_long) (Some sample_geojson) 1
      = Ok (ChoroplethMap crime_summary sample_geojson "BoroughName"
              "properties.name" "CrimeCount" "Crime Heatmap of London") /\
    columns crime_summary = ["BoroughName"; "CrimeCount"].
Proof.
  destruct (update_heatmap_borough_totals sample_long sample_geojson 1)
    as (s & Hs & Hc & _).
  - reflexivity.
  - exists s; split; assumption.
Defined.

(** On the sample the heatmap frame is the two borough totals. *)
Example update_heatmap_sample :
  update_heatmap (Some sample_long) (Some sample_geojson) 1
  = Ok (ChoroplethMap
          {| columns := ["BoroughName"; "CrimeCount"];
             rows := [ [VStr "Barnet"; VInt 15]; [VStr "Camden"; VInt 15] ] |}
          sample_geojson "BoroughName" "properties.name" "CrimeCount"
          "Crime Heatmap of London").
Proof. reflexivity. Qed.

(** ** Sums over lists *)

Lemma sumZ_app (l1 l2 : list Z) : sumZ (l1 ++ l2) = (sumZ l1 + sumZ l2)%Z.
Proof.
  induction l1 as [|x l1 IH]; simpl; [reflexivity|].
  rewrite IH; lia.
Qed.

Lemma sumZ_flat_map {A B : Type} (h : A -> list B) (f : B -> Z)
    (g : B -> bool) (l : list A) :
  sumZ (map f (filter g (flat_map h l)))
  = sumZ (map (fun a => sumZ (map f (filter g (h a)))) l).
Proof.
  induction l as [|a l IH]; simpl; [reflexivity|].
  rewrite filter_app, map_app, sumZ_app, IH; reflexivity.
Qed.

Lemma sumZ_map_add {A : Type} (f g : A -> Z) (l : list A) :
  sumZ (map (fun a => (f a + g a)%Z) l)
  = (sumZ (map f l) + sumZ (map g l))%Z.
Proof.
  induction l as [|a l IH]; simpl; [reflexivity|].
  rewrite IH; lia.
Qed.

Lemma sumZ_map_zero {A : Type} (l : list A) :
  sumZ (map (fun _ => 0%Z) l) = 0%Z.
Proof. induction l as [|a l IH]; simpl; [reflexivity | now rewrite IH]. Qed.

Lemma sumZ_map_ext {A : Type} (f g : A -> Z) (l : list A) :
  (forall a, In a l -> f a = g a) -> sumZ (map f l) = sumZ (map g l).
Proof.
  intros H; f_equal; now apply map_ext_in.
Qed.

(** Summing a table of numbers by rows or by columns gives the same. *)
Lemma sumZ_exchange {A B : Type} (a : A -> B -> Z) (ps : list A) (rs : list B) :
  sumZ (map (fun p => sumZ (map (fun r => a p r) rs)) ps)
  = sumZ (map (fun r => sumZ (map (fun p => a p r) ps)) rs).
Proof.
  induction ps as [|p ps IH]; simpl.
  - now rewrite sumZ_map_zero.
  - rewrite IH, <- sumZ_map_add; reflexivity.
Qed.

(** ** The reshaper on a wide table *)

Lemma length_value_columns (cols ids : list string) :
  List.length (value_columns cols ids)
  = List.length (filter (fun c => negb (mem c ids)) cols).
Proof.
  unfold value_columns; generalize 0%nat.
  induction cols as [|c cols IH]; intros start; simpl; [reflexivity|].
  destruct (negb (mem c ids)); simpl; now rewrite IH.
Qed.

(** The value columns, looked up by position, are the month cells of the
    row. *)
Lemma value_cells_of_row (ids : list string) (cols : list string) :
  forall (pre r : list value),
    List.length r = List.length cols ->
    sumZ (map (fun p : nat * string => int_of (nth (fst p) (pre ++ r) (VStr "")))
              (filter (fun p => negb (mem (snd p) ids))
                      (combine (seq (List.length pre) (List.length cols)) cols)))
    = sumZ (map (fun p : string * value => int_of (snd p))
                (filter (fun p => negb (mem (fst p) ids)) (combine cols r))).
Proof.
  induction cols as [|c cols IH]; intros pre r Hlen; [reflexivity|].
  destruct r as [|v r]; [discriminate|].
  injection Hlen as Hlen.
  specialize (IH (pre ++ [v]) r Hlen).
  rewrite <- app_assoc, length_app in IH; simpl in IH.
  rewrite Nat.add_1_r in IH.
  cbn [List.length seq combine filter fst snd].
  destruct (negb (mem c ids)); cbn [map sumZ fold_right fst snd].
  - rewrite nth_middle; unfold sumZ in IH; rewrite IH; reflexivity.
  - exact IH.
Qed.

Lemma wide_row_sum_by_position (cols : list string) (r : list value) :
  List.length r = List.length cols ->
  sumZ (map (fun p : nat * string => int_of (nth (fst p) r (VStr "")))
            (value_columns cols id_vars))
  = wide_row_sum cols r.
Proof.
  intros Hlen; apply (value_cells_of_row id_vars cols [] r Hlen).
Qed.

Lemma filter_none {A : Type} (f : A -> bool) (l : list A) :
  (forall a, In a l -> f a = false) -> filter f l = [].
Proof.
  induction l as [|a l IH]; intros H; simpl; [reflexivity|].
  rewrite (H a (or_introl eq_refl)).
  apply IH; intros b Hb; apply H; now right.
Qed.

Lemma valid_wide_inv (wide : DataFrame) :
  valid_wide wide = true ->
  mem "CrimeCount" (columns wide) = false /\
  filter (fun c => negb (mem c (columns wide))) id_vars = [] /\
  Forall (fun r => List.length r = List.length (columns wide)) (rows wide).
Proof.
  unfold valid_wide; intros H.
  apply andb_true_iff in H as [H Hrows].
  apply andb_true_iff in H as [H Hcc].
  apply andb_true_iff in H as [_ Hids].
  split; [now apply negb_true_iff|]; split.
  - rewrite forallb_forall in Hids.
    apply filter_none; intros c Hc.
    now rewrite (Hids c Hc).
  - apply Forall_forall; intros r Hr.
    rewrite forallb_forall in Hrows.
    specialize (Hrows r Hr); unfold wide_row_ok in Hrows.
    apply andb_true_iff in Hrows as [Hlen _].
    now apply Nat.eqb_eq.
Qed.

Lemma length_flat_map_rows {A B C : Type} (g : A -> B -> C) (ps : list A)
    (rs : list B) :
  List.length (flat_map (fun p => map (g p) rs) ps)
  = (List.length rs * List.length ps)%nat.
Proof.
  induction ps as [|p ps IH]; simpl; [lia|].
  rewrite length_app, length_map, IH; lia.
Qed.

(** The long rows made from one value column: their identifier cells and
    counts are those of the wide rows. *)
Lemma melted_column_total (cols : list string) (t : list value)
    (p : nat * string) (rs : list (list value)) :
  sumZ (map (fun lr => int_of (cell long_columns lr "CrimeCount"))
            (filter (fun lr => tuple_eqb (id_tuple long_columns lr) t)
                    (map (fun r => map (cell cols r) id_vars
                                   ++ [VStr (snd p); nth (fst p) r (VStr "")])
                         rs)))
  = sumZ (map (fun r => int_of (nth (fst p) r (VStr "")))
              (filter (fun r => tuple_eqb (id_tuple cols r) t) rs)).
Proof.
  induction rs as [|r rs IH]; [reflexivity|].
  cbn [map filter].
  change (tuple_eqb
            (id_tuple long_columns
               (map (cell cols r) id_vars
                ++ [VStr (snd p); nth (fst p) r (VStr "")])) t)
    with (tuple_eqb (id_tuple cols r) t).
  destruct (tuple_eqb (id_tuple cols r) t); [|exact IH].
  cbn [map sumZ fold_right]; unfold sumZ in IH; rewrite IH.
  reflexivity.
Qed.

(** C1: for every valid wide crime table (the three identifier columns,
    every other column a month) [melt_crime_data] returns a long table
    with the five long columns whose number of rows is the number of wide
    rows times the number of month columns, and in which, for every
    identifier tuple, the sum of CrimeCount over the tuple's rows equals
    the sum of the month cells of the wide rows of that tuple. *)
Theorem melt_crime_data_rows_and_totals (wide : DataFrame) :
  valid_wide wide = true ->
  exists long,
    melt_crime_data (Some wide) = Ok (Some long) /\
    columns long = long_columns /\
    List.length (rows long)
      = (List.length (rows wide) * List.length (month_columns wide))%nat /\
    forall t, long_tuple_total long t = wide_tuple_total wide t.
Proof.
  intros Hvalid.
  destruct (valid_wide_inv wide Hvalid) as (Hcc & Hids & Hlen).
  destruct wide as [cols rs]; cbn [columns rows] in *.
  eexists; split; [|split; [|split]].
  - unfold melt_crime_data, melt; cbn [columns rows].
    rewrite Hcc, Hids; reflexivity.
  - reflexivity.
  - cbn [rows]; rewrite length_flat_map_rows, length_value_columns.
    reflexivity.
  - intros t; unfold long_tuple_total, wide_tuple_total.
    cbn [columns rows].
    change (id_vars ++ ["Month"; "CrimeCount"]) with long_columns.
    rewrite sumZ_flat_map.
    rewrite (sumZ_map_ext _ _ _
               (fun p _ => melted_column_total cols t p rs)).
    rewrite (sumZ_exchange
               (fun (p : nat * string) r => int_of (nth (fst p) r (VStr "")))).
    apply sumZ_map_ext; intros r Hr.
    apply wide_row_sum_by_position.
    apply filter_In in Hr as [Hr _].
    rewrite Forall_forall in Hlen; now apply Hlen.
Qed.

Lemma melt_crime_data_rows_and_totals_witness :
  exists long,
    melt_crime_data (Some sample_wide) = Ok (Some long) /\
    columns long = long_columns /\
    List.length (rows long)
      = (List.length (rows sample_wide)
         * List.length (month_columns sample_wide))%nat /\
    forall t, long_tuple_total long t = wide_tuple_total sample_wide t.
Proof.
  apply (melt_crime_data_rows_and_totals sample_wide).
  reflexivity.
Defined.

(** The sample: the loaded file reshapes to the long sample, eight rows
    from four rows and two months. *)
Example melt_crime_data_sample :
  melt_crime_data (Some sample_wide) = Ok (Some sample_long) /\
  long_tuple_total sample_long
    [VStr "Camden"; VStr "Theft"; VStr "Shoplifting"] = 7%Z.
Proof. split; reflexivity. Qed.

(** ** The reshaped table is a typed long table *)

Lemma index_of_nth (c : string) (cols : list string) (i : nat) :
  index_of c cols = Some i ->
  (i < List.length cols)%nat /\ nth i cols "" = c.
Proof.
  revert i; induction cols as [|x cols IH]; intros i; simpl; [discriminate|].
  destruct (String.eqb_spec c x) as [->|Hne].
  - intros [= <-]; split; [lia | reflexivity].
  - destruct (index_of c cols) as [j|]; simpl; [|discriminate].
    intros [= <-]; destruct (IH j eq_refl) as [Hlt Hnth].
    split; [lia | assumption].
Qed.

Lemma in_combine_seq (l : list string) :
  forall (start i : nat) (c : string),
    In (i, c) (combine (seq start (List.length l)) l) ->
    (start <= i < start + List.length l)%nat /\ nth (i - start) l "" = c.
Proof.
  induction l as [|x l IH]; intros start i c; simpl; [contradiction|].
  intros [[= <- <-] | H].
  - rewrite Nat.sub_diag; split; [lia | reflexivity].
  - destruct (IH (S start) i c H) as [Hrange Hnth].
    split; [lia|].
    replace (i - start)%nat with (S (i - S start)) by lia.
    exact Hnth.
Qed.

Lemma value_columns_In (cols ids : list string) (i : nat) (c : string) :
  In (i, c) (value_columns cols ids) ->
  (i < List.length cols)%nat /\ nth i cols "" = c /\ mem c ids = false.
Proof.
  unfold value_columns; intros H; apply filter_In in H as [H Hmem].
  apply in_combine_seq in H as [Hrange Hnth].
  rewrite Nat.sub_0_r in Hnth.
  split; [lia|]; split; [assumption | now apply negb_true_iff].
Qed.

(** The cell at a position has the type of the column at that position. *)
Lemma wide_row_cell_type (cols : list string) (r : list value) (i : nat) :
  wide_row_ok cols r = true ->
  (i < List.length cols)%nat ->
  (if mem (nth i cols "") id_vars then is_str (nth i r (VStr ""))
   else is_int (nth i r (VStr ""))) = true.
Proof.
  unfold wide_row_ok; intros H Hi.
  apply andb_true_iff in H as [Hlen Hty].
  apply Nat.eqb_eq in Hlen.
  rewrite forallb_forall in Hty.
  specialize (Hty (nth i cols "", nth i r (VStr ""))); apply Hty.
  rewrite <- combine_nth by (symmetry; exact Hlen).
  apply nth_In; rewrite length_combine; lia.
Qed.

Lemma wide_row_id_cell (cols : list string) (r : list value) (c : string) :
  wide_row_ok cols r = true ->
  In c id_vars ->
  In c cols ->
  exists s, cell cols r c = VStr s.
Proof.
  intros Hok Hid Hc; unfold cell.
  destruct (index_of_In c cols Hc) as [i Hi]; rewrite Hi.
  apply index_of_nth in Hi as [Hlt Hnth].
  pose proof (wide_row_cell_type cols r i Hok Hlt) as Hty.
  rewrite Hnth, (proj2 (mem_In c id_vars) Hid) in Hty.
  destruct (nth i r (VStr "")) as [s|]; [now exists s | discriminate].
Qed.

Lemma wide_row_month_cell (cols : list string) (r : list value) (i : nat)
    (c : string) :
  wide_row_ok cols r = true ->
  In (i, c) (value_columns cols id_vars) ->
  exists n, nth i r (VStr "") = VInt n.
Proof.
  intros Hok Hin; apply value_columns_In in Hin as (Hlt & Hnth & Hmem).
  pose proof (wide_row_cell_type cols r i Hok Hlt) as Hty.
  rewrite Hnth, Hmem in Hty.
  destruct (nth i r (VStr "")) as [|n]; [discriminate | now exists n].
Qed.

(** What [melt_crime_data] returns for a valid wide table is a long-format
    table in the sense used for the callbacks. *)
Lemma melt_crime_data_long_format (wide : DataFrame) :
  valid_wide wide = true ->
  exists long,
    melt_crime_data (Some wide) = Ok (Some long) /\ long_format long = true.
Proof.
  intros Hvalid.
  destruct (valid_wide_inv wide Hvalid) as (Hcc & Hids & _).
  assert (Hrows : forall r, In r (rows wide) ->
                    wide_row_ok (columns wide) r = true).
  { unfold valid_wide in Hvalid.
    apply andb_true_iff in Hvalid as [_ H].
    now apply forallb_forall. }
  assert (Hpresent : forall c, In c id_vars -> In c (columns wide)).
  { unfold valid_wide in Hvalid.
    apply andb_true_iff in Hvalid as [H _].
    apply andb_true_iff in H as [H _].
    apply andb_true_iff in H as [_ H].
    rewrite forallb_forall in H.
    intros c Hc; apply mem_In, H, Hc. }
  destruct wide as [cols rs]; cbn [columns rows] in *.
  eexists; split.
  - unfold melt_crime_data, melt; cbn [columns rows].
    rewrite Hcc, Hids; reflexivity.
  - unfold long_format; cbn [columns rows].
    apply andb_true_iff; split; [reflexivity|].
    apply forallb_forall; intros lr Hlr.
    apply in_flat_map in Hlr as ([i c] & Hp & Hlr).
    apply in_map_iff in Hlr as (r & <- & Hr).
    specialize (Hrows r Hr).
    destruct (wide_row_id_cell cols r "BoroughName" Hrows) as [b Hb];
      [simpl; tauto | apply Hpresent; simpl; tauto |].
    destruct (wide_row_id_cell cols r "MajorCrimeCategory" Hrows) as [m Hm];
      [simpl; tauto | apply Hpresent; simpl; tauto |].
    destruct (wide_row_id_cell cols r "CrimeSubcategory" Hrows) as [s Hs];
      [simpl; tauto | apply Hpresent; simpl; tauto |].
    destruct (wide_row_month_cell cols r i c Hrows Hp) as [n Hn].
    cbn [map id_vars app fst snd]; rewrite Hb, Hm, Hs, Hn.
    reflexivity.
Qed.

(** ** Changing the borough *)

Lemma fire_heatmap_selection (crime_df : option DataFrame)
    (geojson_data : option GeoJSON) (ui : UI) :
  navigate_n_clicks (fire_heatmap crime_df geojson_data ui)
    = navigate_n_clicks ui /\
  borough_selection (fire_heatmap crime_df geojson_data ui)
    = borough_selection ui /\
  major_crime_selection (fire_heatmap crime_df geojson_data ui)
    = major_crime_selection ui.
Proof.
  unfold fire_heatmap.
  destruct (update_heatmap crime_df geojson_data (navigate_n_clicks ui));
    repeat split.
Qed.

Lemma fire_graphs_and_dropdown_n_clicks (crime_df : option DataFrame)
    (ui : UI) :
  navigate_n_clicks (fire_graphs_and_dropdown crime_df ui)
    = navigate_n_clicks ui.
Proof.
  unfold fire_graphs_and_dropdown.
  destruct (update_graphs_and_dropdown crime_df (navigate_n_clicks ui)
              (major_crime_selection ui) (borough_selection ui));
    reflexivity.
Qed.

Lemma step_n_clicks (crime_df : option DataFrame)
    (geojson_data : option GeoJSON) (ui : UI) (ev : event) :
  (0 <= navigate_n_clicks ui)%Z ->
  (0 <= navigate_n_clicks (step crime_df geojson_data ui ev))%Z.
Proof.
  intros H; destruct ev as [b| |m]; simpl.
  - exact H.
  - rewrite fire_graphs_and_dropdown_n_clicks.
    destruct (fire_heatmap_selection crime_df geojson_data
                (with_n_clicks (navigate_n_clicks ui + 1) ui)) as [-> _].
    simpl; lia.
  - rewrite fire_graphs_and_dropdown_n_clicks; exact H.
Qed.

(** The click count of a page that was loaded and then used is never
    negative. *)
Lemma reachable_n_clicks (crime_df : option DataFrame)
    (geojson_data : option GeoJSON) (ui : UI) :
  reachable crime_df geojson_data ui -> (0 <= navigate_n_clicks ui)%Z.
Proof.
  intros [evs ->]; unfold run.
  assert (H0 : (0 <= navigate_n_clicks (page_load crime_df geojson_data))%Z).
  { unfold page_load; rewrite fire_graphs_and_dropdown_n_clicks.
    destruct (fire_heatmap_selection crime_df geojson_data layout_ui)
      as [-> _].
    simpl; lia. }
  revert H0; generalize (page_load crime_df geojson_data).
  induction evs as [|ev evs IH]; intros ui H; simpl; [exact H|].
  apply IH, step_n_clicks, H.
Qed.

(** C4, as stated, fails: after a click with Camden chosen, the user
    clears the borough and picks the category Theft; the callback, run
    without a borough, hides the dashboard and leaves the category value
    alone.  Choosing the borough Barnet then fires nothing: the category
    is still Theft and the dashboard still hidden. *)
Lemma borough_change_keeps_category :
  let crime_df := Some sample_long in
  let geojson_data := Some sample_geojson in
  let ui := run crime_df geojson_data (page_load crime_df geojson_data)
              [SelectBorough (Some "Camden"); NavigateClick;
               SelectBorough None; SelectMajorCrime (Some "Theft")] in
  let ui' := step crime_df geojson_data ui (SelectBorough (Some "Barnet")) in
  borough_selection ui = None /\
  major_crime_selection ui = Some "Theft" /\
  borough_selection ui' = Some "Barnet" /\
  major_crime_selection ui' = Some "Theft" /\
  major_crime_selection ui' <> None /\
  major_crime_dropdown_options ui' = [] /\
  graph_container ui' = display_none.
Proof.
  vm_compute; repeat split; discriminate.
Qed.

(** C4, amended: choosing another borough by itself runs no callback (the
    borough dropdown is a [State] of the callback, not an [Input]): it
    leaves the category value, the category options and what is shown as
    they were.  The category value is reset to empty at the next click of
    the button: with the crime table present and a non-empty borough
    chosen, that click shows the dashboard, lists the new borough's
    categories and clears the category value. *)
Theorem borough_change_then_click (df : DataFrame)
    (geojson_data : option GeoJSON) (ui : UI) (borough : string) :
  long_format df = true ->
  (0 <= navigate_n_clicks ui)%Z ->
  borough <> "" ->
  let changed := step (Some df) geojson_data ui (SelectBorough (Some borough)) in
  let clicked := step (Some df) geojson_data changed NavigateClick in
  (borough_selection changed = Some borough /\
   major_crime_selection changed = major_crime_selection ui /\
   major_crime_dropdown_options changed = major_crime_dropdown_options ui /\
   graph_container changed = graph_container ui /\
   crime_breakdown_graph changed = crime_breakdown_graph ui) /\
  (borough_selection clicked = Some borough /\
   major_crime_selection clicked = None /\
   map option_value (major_crime_dropdown_options clicked)
     = unique (borough_categories df borough) /\
   graph_container clicked = display_block /\
   major_crime_dropdown_style clicked = display_block).
Proof.
  intros Hlong Hn Hne changed clicked.
  split; [repeat split|].
  destruct df as [cols rs].
  pose proof (long_format_columns _ Hlong) as Hc; simpl in Hc; subst cols.
  pose proof (long_format_rows _ Hlong) as Hrs; simpl in Hrs.
  subst clicked; unfold step.
  destruct (fire_heatmap_selection
              (Some {| columns := long_columns; rows := rs |}) geojson_data
              (with_n_clicks (navigate_n_clicks changed + 1) changed))
    as (H1 & H2 & H3).
  unfold fire_graphs_and_dropdown; rewrite H1, H2, H3.
  change (borough_selection
            (with_n_clicks (navigate_n_clicks changed + 1) changed))
    with (Some borough) in *.
  change (navigate_n_clicks
            (with_n_clicks (navigate_n_clicks changed + 1) changed))
    with (navigate_n_clicks ui + 1)%Z.
  match goal with
  | |- context [update_graphs_and_dropdown _ _ ?m _] =>
      destruct (update_graphs_and_dropdown_shown rs (navigate_n_clicks ui + 1)
                  m borough ltac:(lia) Hrs Hne) as (t & p & ->)
  end.
  cbn [apply_outputs borough_selection major_crime_selection
       major_crime_dropdown_options graph_container
       major_crime_dropdown_style major_crime_value major_crime_options
       graph_container_style major_crime_style store].
  rewrite H2, map_map; cbn [option_value]; rewrite map_id.
  repeat split.
Qed.

Lemma borough_change_then_click_witness :
  let df := sample_long in
  let geojson_data := Some sample_geojson in
  let ui := run (Some df) geojson_data (page_load (Some df) geojson_data)
              [SelectBorough (Some "Camden"); NavigateClick;
               SelectBorough None; SelectMajorCrime (Some "Theft")] in
  let changed := step (Some df) geojson_data ui (SelectBorough (Some "Barnet")) in
  let clicked := step (Some df) geojson_data changed NavigateClick in
  major_crime_selection changed = Some "Theft" /\
  major_crime_selection clicked = None /\
  graph_container clicked = display_block.
Proof.
  intros df geojson_data ui changed clicked.
  destruct (borough_change_then_click df geojson_data ui "Barnet")
    as [(_ & Hkeep & _) (_ & Hreset & _ & Hshown & _)].
  - reflexivity.
  - vm_compute; discriminate.
  - discriminate.
  - split; [exact (eq_trans Hkeep eq_refl) | split; assumption].
Defined.

(** ** Choosing a category *)

(** On the page: when the dashboard is in use and the user picks a
    category, the callback draws that category's breakdown for the chosen
    borough and, in the same run, sets the dropdown's value back to
    empty. *)
Lemma select_major_crime_step (df : DataFrame)
    (geojson_data : option GeoJSON) (ui : UI) (borough major : string) :
  long_format df = true ->
  navigate_n_clicks ui <> 0%Z ->
  borough_selection ui = Some borough ->
  borough <> "" ->
  major <> "" ->
  let ui' := step (Some df) geojson_data ui (SelectMajorCrime (Some major)) in
  major_crime_selection ui' = None /\
  graph_container ui' = display_block /\
  exists fig,
    crime_breakdown_graph ui' = Some fig /\
    plotted_rows fig
      = filter (fun r => value_eqb (cell (columns df) r "MajorCrimeCategory")
                                   (VStr major))
               (filter (fun r => value_eqb (cell (columns df) r "BoroughName")
                                           (VStr borough))
                       (rows df)).
Proof.
  intros Hlong Hn Hsel Hb Hm ui'.
  destruct df as [cols rs].
  pose proof (long_format_columns _ Hlong) as Hc; simpl in Hc; subst cols.
  pose proof (long_format_rows _ Hlong) as Hrs; simpl in Hrs.
  subst ui'; unfold step, fire_graphs_and_dropdown.
  cbn [with_major_crime navigate_n_clicks major_crime_selection
       borough_selection].
  rewrite Hsel.
  destruct (update_graphs_and_dropdown_shown rs (navigate_n_clicks ui)
              (Some major) borough Hn Hrs Hb) as (t & p & ->).
  apply String.eqb_neq in Hm; rewrite Hm.
  cbn [apply_outputs major_crime_selection graph_container
       crime_breakdown_graph major_crime_value graph_container_style
       crime_breakdown_figure store store_figure].
  split; [reflexivity|]; split; [reflexivity|].
  eexists; split; reflexivity.
Qed.

Example select_major_crime_sample :
  let crime_df := Some sample_long in
  let geojson_data := Some sample_geojson in
  let ui := run crime_df geojson_data (page_load crime_df geojson_data)
              [SelectBorough (Some "Barnet"); NavigateClick;
               SelectMajorCrime (Some "Theft")] in
  major_crime_selection ui = None /\
  option_map plotted_rows (crime_breakdown_graph ui)
    = Some [ [VStr "Barnet"; VStr "Theft"; VStr "Shoplifting";
              VStr "202201"; VInt 7];
             [VStr "Barnet"; VStr "Theft"; VStr "Shoplifting";
              VStr "202202"; VInt 8] ].
Proof. vm_compute; split; reflexivity. Qed.

(** * Further properties of the module *)

(** ** The borough dropdown *)

(** For a long-format table [get_borough_options] lists the distinct
    boroughs in order of first appearance: label and value of an option
    are the borough's name, no borough is listed twice, and a borough is
    listed if and only if the table has a row for it. *)
Theorem get_borough_options_distinct (df : DataFrame) :
  long_format df = true ->
  exists opts,
    get_borough_options (Some df) = Ok opts /\
    map option_value opts
      = unique (map (fun r => cell (columns df) r "BoroughName") (rows df)) /\
    map label opts = map option_value opts /\
    NoDup (map option_value opts) /\
    (forall b, In b (map option_value opts) <->
               exists r, In r (rows df) /\
                         cell (columns df) r "BoroughName" = b) /\
    (forall b, In b (map option_value opts) -> is_str b = true).
Proof.
  intros Hlong.
  destruct df as [cols rs].
  pose proof (long_format_columns _ Hlong) as Hc; simpl in Hc; subst cols.
  pose proof (long_format_rows _ Hlong) as Hrs; simpl in Hrs.
  eexists; split; [reflexivity|].
  rewrite !map_map; cbn [option_value label columns rows]; rewrite map_id.
  split; [reflexivity|]; split; [reflexivity|]; split;
    [apply unique_NoDup|]; split.
  - intros b; rewrite unique_In, in_map_iff.
    split; intros (r & H1 & H2); exists r; tauto.
  - intros b Hb; apply unique_In, in_map_iff in Hb as (r & <- & Hr).
    rewrite Forall_forall in Hrs; specialize (Hrs r Hr).
    apply long_row_ok_inv in Hrs as (b & m & s & mo & n & ->).
    reflexivity.
Qed.

Lemma get_borough_options_distinct_witness :
  exists opts,
    get_borough_options (Some sample_long) = Ok opts /\
    map option_value opts
      = unique (map (fun r => cell (columns sample_long) r "BoroughName")
                    (rows sample_long)).
Proof.
  destruct (get_borough_options_distinct sample_long) as (opts & H1 & H2 & _).
  - reflexivity.
  - exists opts; split; assumption.
Defined.

(** The borough dropdown and the heatmap name the same boroughs: the
    option values are a rearrangement of the borough column of the frame
    the heatmap draws. *)
Theorem borough_options_match_heatmap (df : DataFrame) (gj : GeoJSON)
    (n_clicks : Z) :
  long_format df = true ->
  exists opts crime_summary,
    get_borough_options (Some df) = Ok opts /\
    update_heatmap (Some df) (Some gj) n_clicks
      = Ok (ChoroplethMap crime_summary gj "BoroughName" "properties.name"
              "CrimeCount" "Crime Heatmap of London") /\
    Permutation
      (map option_value opts)
      (map (fun row => cell (columns crime_summary) row "BoroughName")
           (rows crime_summary)).
Proof.
  intros Hlong.
  destruct df as [cols rs].
  pose proof (long_format_columns _ Hlong) as Hc; simpl in Hc; subst cols.
  pose proof (long_format_rows _ Hlong) as Hrs; simpl in Hrs.
  eexists; eexists; split; [reflexivity|]; split.
  - unfold update_heatmap; rewrite (groupby_borough_sum rs Hrs).
    reflexivity.
  - cbn [columns rows].
    rewrite !map_map; cbn [option_value]; rewrite map_id.
    match goal with
    | |- Permutation _ (map ?f ?l) =>
        replace (map f l) with l by (symmetry; apply map_id)
    end.
    symmetry; apply sort_values_perm.
Qed.

Lemma borough_options_match_heatmap_witness :
  exists opts crime_summary,
    get_borough_options (Some sample_long) = Ok opts /\
    update_heatmap (Some sample_long) (Some sample_geojson) 1
      = Ok (ChoroplethMap crime_summary sample_geojson "BoroughName"
              "properties.name" "CrimeCount" "Crime Heatmap of London") /\
    Permutation
      (map option_value opts)
      (map (fun row => cell (columns crime_summary) row "BoroughName")
           (rows crime_summary)).
Proof.
  apply (borough_options_match_heatmap sample_long sample_geojson 1).
  reflexivity.
Defined.

(** ** What the reshaper accepts *)



(** The police export, reshaped without the loader's renaming, is refused:
    its category columns still have the names MajorText and MinorText. *)
Example melt_crime_data_unrenamed :
  melt_crime_data (Some sample_csv)
  = Raise (KeyError ["MajorCrimeCategory"; "CrimeSubcategory"]).
Proof. reflexivity. Qed.

Lemma value_columns_month (cols : list string) (i : nat) (c : string) :
  In (i, c) (value_columns cols id_vars) ->
  In c (filter (fun c => negb (mem c id_vars)) cols).
Proof.
  intros H; apply value_columns_In in H as (Hlt & Hnth & Hmem).
  apply filter_In; split.
  - rewrite <- Hnth; now apply nth_In.
  - now rewrite Hmem.
Qed.

(** For a valid wide table the reshaped table is a typed long table (text
    in the four label columns, an integer in CrimeCount), and it invents
    nothing: every long row carries the identifier cells of some wide row
    and, as its Month, the label of one of the month columns. *)
Theorem melt_crime_data_typed (wide : DataFrame) :
  valid_wide wide = true ->
  exists long,
    melt_crime_data (Some wide) = Ok (Some long) /\
    long_format long = true /\
    forall lr, In lr (rows long) ->
      exists r c,
        In r (rows wide) /\ In c (month_columns wide) /\
        id_tuple (columns long) lr = id_tuple (columns wide) r /\
        cell (columns long) lr "Month" = VStr c.
Proof.
  intros Hvalid.
  destruct (melt_crime_data_long_format wide Hvalid) as (long & Hmelt & Hlong).
  exists long; split; [assumption|]; split; [assumption|].
  destruct (valid_wide_inv wide Hvalid) as (Hcc & Hids & _).
  destruct wide as [cols rs]; cbn [columns rows] in *.
  unfold melt_crime_data, melt in Hmelt; cbn [columns rows] in Hmelt.
  rewrite Hcc, Hids in Hmelt; cbn [bind] in Hmelt.
  injection Hmelt as <-; cbn [columns rows].
  intros lr Hlr.
  apply in_flat_map in Hlr as ([i c] & Hp & Hlr).
  apply in_map_iff in Hlr as (r & <- & Hr).
  exists r, c; split; [assumption|]; split.
  - unfold month_columns; cbn [columns].
    now apply value_columns_month with (i := i).
  - split; reflexivity.
Qed.

Lemma melt_crime_data_typed_witness :
  exists long,
    melt_crime_data (Some sample_wide) = Ok (Some long) /\
    long_format long = true.
Proof.
  destruct (melt_crime_data_typed sample_wide) as (long & H1 & H2 & _).
  - reflexivity.
  - exists long; split; assumption.
Defined.

(** ** Grouped sums, row by row *)

Lemma mapM_Forall2 {A B : Type} (f : A -> result B) (l : list A)
    (out : list B) :
  mapM f l = Ok out -> Forall2 (fun a b => f a = Ok b) l out.
Proof.
  revert out; induction l as [|a l IH]; intros out H; simpl in H.
  - injection H as <-; constructor.
  - destruct (f a) as [b|] eqn:Hb; cbn [bind] in H; [|discriminate].
    destruct (mapM f l) as [bs|] eqn:Hbs; cbn [bind] in H; [|discriminate].
    injection H as <-; constructor; [assumption | now apply IH].
Qed.

Lemma Forall2_impl {A B : Type} (P Q : A -> B -> Prop) (l1 : list A)
    (l2 : list B) :
  (forall a b, In a l1 -> P a b -> Q a b) ->
  Forall2 P l1 l2 -> Forall2 Q l1 l2.
Proof.
  intros H F; induction F as [|a b l1 l2 Hab _ IH]; constructor.
  - apply H; [now left | assumption].
  - apply IH; intros x y Hx; apply H; now right.
Qed.

Lemma Forall2_map_r {A B C : Type} (g : A -> C) (h : B -> C) (l1 : list A)
    (l2 : list B) :
  Forall2 (fun a b => h b = g a) l1 l2 -> map h l2 = map g l1.
Proof.
  induction 1 as [|a b l1 l2 Hab _ IH]; simpl; congruence.
Qed.

Lemma Forall2_In_r {A B : Type} (P : A -> B -> Prop) (l1 : list A)
    (l2 : list B) (b : B) :
  Forall2 P l1 l2 -> In b l2 -> exists a, In a l1 /\ P a b.
Proof.
  induction 1 as [|a0 b0 l1 l2 Hab _ IH]; intros Hb; [contradiction|].
  destruct Hb as [<- | Hb].
  - exists a0; split; [now left | assumption].
  - destruct (IH Hb) as (a & Ha & HP); exists a; split; [now right | assumption].
Qed.

(** A grouped sum over a typed long table with CrimeCount as the last of
    four summed columns: the rows follow the sorted distinct keys, and the
    last cell of a row is the total of CrimeCount over the key's group. *)
Lemma groupby_sum_count_rows (rs : list (list value)) (key c1 c2 c3 : string)
    (out : DataFrame) :
  Forall (fun r => long_row_ok r = true) rs ->
  let df := {| columns := long_columns; rows := rs |} in
  groupby_sum df key [c1; c2; c3; "CrimeCount"] = Ok out ->
  columns out = [key; c1; c2; c3; "CrimeCount"] /\
  Forall2
    (fun k row =>
       exists s1 s2 s3,
         row = [k; s1; s2; s3;
                VInt (crime_count_total long_columns (group_rows df key k))])
    (sort_values (unique (map (fun r => cell long_columns r key) rs)))
    (rows out).
Proof.
  intros Hrs df H; subst df; unfold groupby_sum in H.
  unfold column in H; cbn [columns rows] in H.
  assert (Hkeys : forall i, index_of key long_columns = Some i ->
            map (fun r => nth i r (VStr "")) rs
            = map (fun r => cell long_columns r key) rs).
  { intros i Hi; apply map_ext; intros r; unfold cell; now rewrite Hi. }
  destruct (index_of key long_columns) as [i|]; cbn [bind] in H;
    [|discriminate].
  rewrite (Hkeys i eq_refl) in H; clear Hkeys.
  bind_inv H.
  injection H as <-; split; [reflexivity|]; cbn [rows].
  apply mapM_Forall2 in E0.
  revert E0; apply Forall2_impl; intros k row _ Hrow.
  bind_inv Hrow; injection Hrow as <-.
  apply mapM_Forall2 in E0.
  inversion E0 as [|x1 s1 l1 t1 H1 F1]; subst.
  inversion F1 as [|x2 s2 l2 t2 H2 F2]; subst.
  inversion F2 as [|x3 s3 l3 t3 H3 F3]; subst.
  inversion F3 as [|x4 s4 l4 t4 H4 F4]; subst.
  inversion F4; subst.
  exists s1, s2, s3; do 4 f_equal.
  rewrite sum_cells_counts in H4.
  - injection H4 as <-; unfold crime_count_total; now rewrite map_map.
  - apply long_counts_are_int; now apply Forall_filter_rows.
Qed.

(** ** Sorted keys *)

Lemma value_leb_total (a b : value) :
  value_leb a b = true \/ value_leb b a = true.
Proof.
  destruct a as [s|x], b as [t|y]; simpl; auto.
  - apply String.leb_total.
  - destruct (Z.leb_spec x y); [now left|].
    right; apply Z.leb_le; lia.
Qed.

Lemma insert_sorted_sorted (v : value) (l : list value) :
  Sorted (fun a b => value_leb a b = true) l ->
  Sorted (fun a b => value_leb a b = true) (insert_sorted v l).
Proof.
  induction 1 as [|w l Hl IH Hhd]; simpl.
  - repeat constructor.
  - destruct (value_leb v w) eqn:Hvw.
    + constructor; [now constructor | now constructor].
    + assert (Hwv : value_leb w v = true)
        by (destruct (value_leb_total v w); congruence).
      constructor; [assumption|].
      destruct l as [|u l]; simpl.
      * now constructor.
      * destruct (value_leb v u); constructor; [assumption|].
        now inversion Hhd.
Qed.

Lemma sort_values_sorted (l : list value) :
  Sorted (fun a b => value_leb a b = true) (sort_values l).
Proof.
  induction l as [|v l IH]; simpl; [constructor|].
  now apply insert_sorted_sorted.
Qed.

(** ** Sums by key *)

Lemma sumZ_indicator (x : value) (c : Z) (ks : list value) :
  NoDup ks -> In x ks ->
  sumZ (map (fun k => if value_eqb x k then c else 0%Z) ks) = c.
Proof.
  induction 1 as [|k ks Hk Hnd IH]; intros Hin; [contradiction|].
  simpl; destruct (value_eqb x k) eqn:E.
  - apply value_eqb_eq in E; subst k.
    rewrite (sumZ_map_ext _ (fun _ => 0%Z)); [rewrite sumZ_map_zero; lia|].
    intros k' Hk'; destruct (value_eqb x k') eqn:E'; [|reflexivity].
    apply value_eqb_eq in E'; subst; contradiction.
  - destruct Hin as [-> | Hin]; [now rewrite value_eqb_refl in E|].
    rewrite (IH Hin); lia.
Qed.

(** Splitting a list by key and adding the groups up gives the sum of the
    whole list. *)
Lemma sumZ_by_key {A : Type} (key : A -> value) (f : A -> Z)
    (ks : list value) (l : list A) :
  NoDup ks ->
  (forall a, In a l -> In (key a) ks) ->
  sumZ (map (fun k => sumZ (map f (filter (fun a => value_eqb (key a) k) l)))
            ks)
  = sumZ (map f l).
Proof.
  intros Hnd; induction l as [|a l IH]; intros Hin; simpl.
  - apply sumZ_map_zero.
  - rewrite (sumZ_map_ext _
               (fun k => ((if value_eqb (key a) k then f a else 0)
                          + sumZ (map f (filter (fun a => value_eqb (key a) k)
                                                l)))%Z)).
    + rewrite sumZ_map_add, IH by (intros b Hb; apply Hin; now right).
      rewrite sumZ_indicator; [reflexivity | assumption |].
      apply Hin; now left.
    + intros k _; destruct (value_eqb (key a) k); reflexivity.
Qed.

(** ** The trend and pie figures *)

(** The shown outputs with the frames of the trend and pie figures spelled
    out as grouped sums of the borough's rows. *)
Lemma update_graphs_and_dropdown_figures (rs : list (list value))
    (n_clicks : Z) (selected_major_crime : option string) (borough : string) :
  n_clicks <> 0%Z ->
  Forall (fun r => long_row_ok r = true) rs ->
  borough <> "" ->
  let df := {| columns := long_columns; rows := rs |} in
  let filtered_df :=
    {| columns := long_columns; rows := borough_rows df borough |} in
  exists trend_df pie_chart_df breakdown_fig,
    groupby_sum filtered_df "Month"
      ["BoroughName"; "MajorCrimeCategory"; "CrimeSubcategory"; "CrimeCount"]
      = Ok trend_df /\
    groupby_sum filtered_df "MajorCrimeCategory"
      ["BoroughName"; "CrimeSubcategory"; "Month"; "CrimeCount"]
      = Ok pie_chart_df /\
    update_graphs_and_dropdown (Some df) n_clicks selected_major_crime
      (Some borough)
    = Ok {| graph_container_style := display_block;
            crime_trend_figure :=
              new_value
                (LineChart (Some trend_df) (Some "Month") (Some "CrimeCount")
                   None
                   (Some ("Overall Crime Trend in " ++ borough
                          ++ " Over Time")%string));
            pie_chart_figure :=
              new_value
                (PieChart pie_chart_df "MajorCrimeCategory" "CrimeCount"
                   ("Count of Each Major Crime Type in " ++ borough)%string);
            pie_chart_style := display_block;
            crime_breakdown_figure := new_value breakdown_fig;
            major_crime_options :=
              map (fun mc => {| label := mc; option_value := mc |})
                  (unique (borough_categories df borough));
            major_crime_style := display_block;
            major_crime_value := new_value None |}.
Proof.
  intros Hn Hrs Hb df filtered_df.
  assert (Hf : Forall (fun r => long_row_ok r = true) (borough_rows df borough))
    by now apply Forall_filter_rows.
  destruct (groupby_sum_long (borough_rows df borough) "Month"
              ["BoroughName"; "MajorCrimeCategory"; "CrimeSubcategory";
               "CrimeCount"] Hf) as [trend_rows Htrend];
    [simpl; tauto | simpl; tauto |].
  destruct (groupby_sum_long (borough_rows df borough) "MajorCrimeCategory"
              ["BoroughName"; "CrimeSubcategory"; "Month"; "CrimeCount"] Hf)
    as [pie_rows Hpie]; [simpl; tauto | simpl; tauto |].
  exists {| columns := ["Month"; "BoroughName"; "MajorCrimeCategory";
                        "CrimeSubcategory"; "CrimeCount"];
            rows := trend_rows |}.
  exists {| columns := ["MajorCrimeCategory"; "BoroughName";
                        "CrimeSubcategory"; "Month"; "CrimeCount"];
            rows := pie_rows |}.
  exists (match selected_major_crime with
          | Some major =>
              if String.eqb major "" then px_line_empty
              else
                LineChart
                  (Some {| columns := long_columns;
                           rows :=
                             filter
                               (fun r =>
                                  value_eqb
                                    (cell long_columns r "MajorCrimeCategory")
                                    (VStr major))
                               (borough_rows df borough) |})
                  (Some "Month") (Some "CrimeCount") (Some "CrimeSubcategory")
                  (Some ("Crime Trend Over Time for " ++ major
                         ++ " in " ++ borough)%string)
          | None => px_line_empty
          end).
  split; [exact Htrend|]; split; [exact Hpie|].
  unfold update_graphs_and_dropdown.
  apply Z.eqb_neq in Hn; rewrite Hn.
  apply String.eqb_neq in Hb.
  unfold truthy at 1; rewrite Hb.
  cbn [is_none negb orb].
  change (filter_eq df "BoroughName" borough) with (Ok filtered_df).
  cbn [bind].
  change (other_columns filtered_df "Month")
    with ["BoroughName"; "MajorCrimeCategory"; "CrimeSubcategory"; "CrimeCount"].
  unfold filtered_df at 1; rewrite Htrend; cbn [bind].
  change (other_columns filtered_df "MajorCrimeCategory")
    with ["BoroughName"; "CrimeSubcategory"; "Month"; "CrimeCount"].
  unfold filtered_df at 1; rewrite Hpie.
  destruct selected_major_crime as [major|]; [|reflexivity].
  unfold truthy; destruct (String.eqb major ""); reflexivity.
Qed.

Lemma count_rows_facts (total : value -> Z) (ks : list value)
    (out : list (list value)) :
  Forall2 (fun k row => exists s1 s2 s3, row = [k; s1; s2; s3; VInt (total k)])
          ks out ->
  map (fun row => nth 0 row (VStr "")) out = ks /\
  (forall row, In row out ->
     nth 4 row (VStr "") = VInt (total (nth 0 row (VStr "")))) /\
  sumZ (map (fun row => int_of (nth 4 row (VStr ""))) out)
    = sumZ (map total ks).
Proof.
  induction 1 as [|k row ks out (s1 & s2 & s3 & ->) _ (IH1 & IH2 & IH3)].
  - split; [reflexivity|]; split; [contradiction | reflexivity].
  - split; [simpl; now rewrite IH1|]; split.
    + intros r [<- | Hr]; [reflexivity | now apply IH2].
    + cbn [map sumZ fold_right nth int_of].
      unfold sumZ in IH3; now rewrite IH3.
Qed.

(** The trend figure: with the button clicked, a long-format table and a
    borough chosen, the frame behind the trend line has one row per
    distinct month of the borough's rows, in ascending order of the month
    label, and the CrimeCount of a row is the borough's total for that
    month over all categories and subcategories. *)
Theorem trend_figure_monthly_totals (df : DataFrame) (n_clicks : Z)
    (selected_major_crime : option string) (borough : string) :
  n_clicks <> 0%Z ->
  long_format df = true ->
  borough <> "" ->
  exists o trend_df,
    update_graphs_and_dropdown (Some df) n_clicks selected_major_crime
      (Some borough) = Ok o /\
    crime_trend_figure o
      = new_value
          (LineChart (Some trend_df) (Some "Month") (Some "CrimeCount") None
             (Some ("Overall Crime Trend in " ++ borough
                    ++ " Over Time")%string)) /\
    let months :=
      map (fun row => cell (columns trend_df) row "Month") (rows trend_df) in
    NoDup months /\
    Sorted (fun a b => value_leb a b = true) months /\
    (forall mo, In mo months <->
                exists r, In r (borough_rows df borough) /\
                          cell (columns df) r "Month" = mo) /\
    (forall row, In row (rows trend_df) ->
       cell (columns trend_df) row "CrimeCount"
       = VInt (month_total df borough
                 (cell (columns trend_df) row "Month"))).
Proof.
  intros Hn Hlong Hne.
  destruct df as [cols rs].
  pose proof (long_format_columns _ Hlong) as Hc; simpl in Hc; subst cols.
  pose proof (long_format_rows _ Hlong) as Hrs; simpl in Hrs.
  destruct (update_graphs_and_dropdown_figures rs n_clicks
              selected_major_crime borough Hn Hrs Hne)
    as (trend_df & pie_df & brk & Htrend & _ & Hrun).
  set (df := {| columns := long_columns; rows := rs |}) in *.
  eexists; exists trend_df; split; [exact Hrun|]; split; [reflexivity|].
  apply groupby_sum_count_rows in Htrend as [Hcols Hrows];
    [|now apply Forall_filter_rows].
  apply count_rows_facts in Hrows as (Hkeys & Hcount & _).
  rewrite Hcols; cbn zeta.
  change (map (fun row => cell ["Month"; "BoroughName"; "MajorCrimeCategory";
                                "CrimeSubcategory"; "CrimeCount"] row "Month")
              (rows trend_df))
    with (map (fun row => nth 0 row (VStr "")) (rows trend_df)).
  rewrite Hkeys.
  split; [|split; [|split]].
  - eapply Permutation_NoDup;
      [symmetry; apply sort_values_perm | apply unique_NoDup].
  - apply sort_values_sorted.
  - intros mo.
    rewrite (Permutation_in' (eq_refl mo) (sort_values_perm _)).
    rewrite unique_In, in_map_iff.
    split; intros (r & H1 & H2); exists r; tauto.
  - intros row Hrow; exact (Hcount row Hrow).
Qed.

Lemma trend_figure_monthly_totals_witness :
  exists o trend_df,
    update_graphs_and_dropdown (Some sample_long) 1 None (Some "Camden")
      = Ok o /\
    crime_trend_figure o
      = new_value
          (LineChart (Some trend_df) (Some "Month") (Some "CrimeCount") None
             (Some "Overall Crime Trend in Camden Over Time")).
Proof.
  destruct (trend_figure_monthly_totals sample_long 1 None "Camden")
    as (o & trend_df & H1 & H2 & _).
  - discriminate.
  - reflexivity.
  - discriminate.
  - exists o, trend_df; split; assumption.
Defined.

(** The pie chart: under the same conditions the frame behind the pie has
    one row per distinct major category of the borough's rows, and the
    CrimeCount of a row is the borough's total for that category over all
    months and subcategories. *)
Theorem pie_chart_category_totals (df : DataFrame) (n_clicks : Z)
    (selected_major_crime : option string) (borough : string) :
  n_clicks <> 0%Z ->
  long_format df = true ->
  borough <> "" ->
  exists o pie_chart_df,
    update_graphs_and_dropdown (Some df) n_clicks selected_major_crime
      (Some borough) = Ok o /\
    pie_chart_figure o
      = new_value
          (PieChart pie_chart_df "MajorCrimeCategory" "CrimeCount"
             ("Count of Each Major Crime Type in " ++ borough)%string) /\
    let slices :=
      map (fun row => cell (columns pie_chart_df) row "MajorCrimeCategory")
          (rows pie_chart_df) in
    NoDup slices /\
    (forall mc, In mc slices <->
                exists r, In r (borough_rows df borough) /\
                          cell (columns df) r "MajorCrimeCategory" = mc) /\
    (forall row, In row (rows pie_chart_df) ->
       cell (columns pie_chart_df) row "CrimeCount"
       = VInt (category_total df borough
                 (cell (columns pie_chart_df) row "MajorCrimeCategory"))) /\
    Permutation slices (map option_value (major_crime_options o)).
Proof.
  intros Hn Hlong Hne.
  destruct df as [cols rs].
  pose proof (long_format_columns _ Hlong) as Hc; simpl in Hc; subst cols.
  pose proof (long_format_rows _ Hlong) as Hrs; simpl in Hrs.
  destruct (update_graphs_and_dropdown_figures rs n_clicks
              selected_major_crime borough Hn Hrs Hne)
    as (trend_df & pie_df & brk & _ & Hpie & Hrun).
  set (df := {| columns := long_columns; rows := rs |}) in *.
  eexists; exists pie_df; split; [exact Hrun|]; split; [reflexivity|].
  apply groupby_sum_count_rows in Hpie as [Hcols Hrows];
    [|now apply Forall_filter_rows].
  apply count_rows_facts in Hrows as (Hkeys & Hcount & _).
  rewrite Hcols; cbn zeta.
  change (map (fun row => cell ["MajorCrimeCategory"; "BoroughName";
                                "CrimeSubcategory"; "Month"; "CrimeCount"]
                               row "MajorCrimeCategory")
              (rows pie_df))
    with (map (fun row => nth 0 row (VStr "")) (rows pie_df)).
  rewrite Hkeys.
  split; [|split; [|split]].
  - eapply Permutation_NoDup;
      [symmetry; apply sort_values_perm | apply unique_NoDup].
  - intros mc.
    rewrite (Permutation_in' (eq_refl mc) (sort_values_perm _)).
    rewrite unique_In, in_map_iff.
    split; intros (r & H1 & H2); exists r; tauto.
  - intros row Hrow; exact (Hcount row Hrow).
  - cbn [major_crime_options].
    rewrite map_map; cbn [option_value]; rewrite map_id.
    apply sort_values_perm.
Qed.

Lemma pie_chart_category_totals_witness :
  exists o pie_chart_df,
    update_graphs_and_dropdown (Some sample_long) 1 None (Some "Camden")
      = Ok o /\
    pie_chart_figure o
      = new_value
          (PieChart pie_chart_df "MajorCrimeCategory" "CrimeCount"
             "Count of Each Major Crime Type in Camden").
Proof.
  destruct (pie_chart_category_totals sample_long 1 None "Camden")
    as (o & pie_df & H1 & H2 & _).
  - discriminate.
  - reflexivity.
  - discriminate.
  - exists o, pie_df; split; assumption.
Defined.

(** ** Totals across the charts *)

Lemma sorted_unique_keys {A : Type} (key : A -> value) (l : list A) :
  NoDup (sort_values (unique (map key l))) /\
  forall a, In a l -> In (key a) (sort_values (unique (map key l))).
Proof.
  split.
  - eapply Permutation_NoDup;
      [symmetry; apply sort_values_perm | apply unique_NoDup].
  - intros a Ha.
    apply (Permutation_in _ (Permutation_sym (sort_values_perm _))).
    apply unique_In, in_map, Ha.
Qed.

(** The heatmap loses and adds nothing: the counts of the frame it draws
    add up to the sum of CrimeCount over the whole table. *)
Theorem update_heatmap_total_preserved (df : DataFrame) (gj : GeoJSON)
    (n_clicks : Z) :
  long_format df = true ->
  exists crime_summary,
    update_heatmap (Some df) (Some gj) n_clicks
      = Ok (ChoroplethMap crime_summary gj "BoroughName" "properties.name"
              "CrimeCount" "Crime Heatmap of London") /\
    crime_count_total (columns crime_summary) (rows crime_summary)
      = crime_count_total (columns df) (rows df).
Proof.
  intros Hlong.
  destruct df as [cols rs].
  pose proof (long_format_columns _ Hlong) as Hc; simpl in Hc; subst cols.
  pose proof (long_format_rows _ Hlong) as Hrs; simpl in Hrs.
  eexists; split.
  - unfold update_heatmap; rewrite (groupby_borough_sum rs Hrs).
    reflexivity.
  - cbn [columns rows]; unfold crime_count_total.
    rewrite map_map.
    destruct (sorted_unique_keys
                (fun r => cell long_columns r "BoroughName") rs) as [Hnd Hin].
    exact (sumZ_by_key (fun r => cell long_columns r "BoroughName")
             (fun r => int_of (cell long_columns r "CrimeCount")) _ rs
             Hnd Hin).
Qed.

Lemma update_heatmap_total_preserved_witness :
  exists crime_summary,
    update_heatmap (Some sample_long) (Some sample_geojson) 1
      = Ok (ChoroplethMap crime_summary sample_geojson "BoroughName"
              "properties.name" "CrimeCount" "Crime Heatmap of London") /\
    crime_count_total (columns crime_summary) (rows crime_summary)
      = crime_count_total (columns sample_long) (rows sample_long).
Proof.
  apply (update_heatmap_total_preserved sample_long sample_geojson 1).
  reflexivity.
Defined.

(** The three views of a borough agree: the monthly totals of the trend
    line and the category totals of the pie chart each add up to the sum
    of CrimeCount over the borough's rows, which is the count the heatmap
    holds for that borough. *)
Theorem borough_totals_agree (df : DataFrame) (gj : GeoJSON) (n_clicks : Z)
    (selected_major_crime : option string) (borough : string) :
  n_clicks <> 0%Z ->
  long_format df = true ->
  borough <> "" ->
  exists o trend_df pie_chart_df crime_summary title,
    update_graphs_and_dropdown (Some df) n_clicks selected_major_crime
      (Some borough) = Ok o /\
    crime_trend_figure o
      = new_value (LineChart (Some trend_df) (Some "Month")
                     (Some "CrimeCount") None title) /\
    pie_chart_figure o
      = new_value
          (PieChart pie_chart_df "MajorCrimeCategory" "CrimeCount"
             ("Count of Each Major Crime Type in " ++ borough)%string) /\
    update_heatmap (Some df) (Some gj) n_clicks
      = Ok (ChoroplethMap crime_summary gj "BoroughName" "properties.name"
              "CrimeCount" "Crime Heatmap of London") /\
    crime_count_total (columns trend_df) (rows trend_df)
      = borough_total df (VStr borough) /\
    crime_count_total (columns pie_chart_df) (rows pie_chart_df)
      = borough_total df (VStr borough) /\
    (forall row, In row (rows crime_summary) ->
       cell (columns crime_summary) row "BoroughName" = VStr borough ->
       cell (columns crime_summary) row "CrimeCount"
       = VInt (borough_total df (VStr borough))).
Proof.
  intros Hn Hlong Hne.
  destruct df as [cols rs].
  pose proof (long_format_columns _ Hlong) as Hc; simpl in Hc; subst cols.
  pose proof (long_format_rows _ Hlong) as Hrs; simpl in Hrs.
  destruct (update_graphs_and_dropdown_figures rs n_clicks
              selected_major_crime borough Hn Hrs Hne)
    as (trend_df & pie_df & brk & Htrend & Hpie & Hrun).
  set (df := {| columns := long_columns; rows := rs |}) in *.
  assert (Hf : Forall (fun r => long_row_ok r = true) (borough_rows df borough))
    by now apply Forall_filter_rows.
  eexists; exists trend_df, pie_df; eexists; eexists.
  split; [exact Hrun|]; split; [reflexivity|]; split; [reflexivity|].
  split; [unfold update_heatmap; subst df;
          rewrite (groupby_borough_sum rs Hrs); reflexivity|].
  apply groupby_sum_count_rows in Htrend as [Htc Htr]; [|assumption].
  apply groupby_sum_count_rows in Hpie as [Hpc Hpr]; [|assumption].
  apply count_rows_facts in Htr as (_ & _ & Htsum).
  apply count_rows_facts in Hpr as (_ & _ & Hpsum).
  split; [|split].
  - rewrite Htc; unfold crime_count_total at 1.
    change (sumZ (map (fun row => int_of (nth 4 row (VStr "")))
                      (rows trend_df))
            = borough_total df (VStr borough)).
    rewrite Htsum.
    destruct (sorted_unique_keys (fun r => cell long_columns r "Month")
                (borough_rows df borough)) as [Hnd Hin].
    exact (sumZ_by_key (fun r => cell long_columns r "Month")
             (fun r => int_of (cell long_columns r "CrimeCount")) _
             (borough_rows df borough) Hnd Hin).
  - rewrite Hpc; unfold crime_count_total at 1.
    change (sumZ (map (fun row => int_of (nth 4 row (VStr "")))
                      (rows pie_df))
            = borough_total df (VStr borough)).
    rewrite Hpsum.
    destruct (sorted_unique_keys
                (fun r => cell long_columns r "MajorCrimeCategory")
                (borough_rows df borough)) as [Hnd Hin].
    exact (sumZ_by_key (fun r => cell long_columns r "MajorCrimeCategory")
             (fun r => int_of (cell long_columns r "CrimeCount")) _
             (borough_rows df borough) Hnd Hin).
  - cbn [columns rows]; intros row Hrow Hb.
    apply in_map_iff in Hrow as (b & <- & _).
    change (b = VStr borough) in Hb; subst b; reflexivity.
Qed.

Lemma borough_totals_agree_witness :
  exists o trend_df,
    update_graphs_and_dropdown (Some sample_long) 1 None (Some "Camden")
      = Ok o /\
    crime_count_total (columns trend_df) (rows trend_df)
      = borough_total sample_long (VStr "Camden").
Proof.
  destruct (borough_totals_agree sample_long sample_geojson 1 None "Camden")
    as (o & trend_df & _ & _ & _ & H1 & _ & _ & _ & H2 & _).
  - discriminate.
  - reflexivity.
  - discriminate.
  - exists o, trend_df; split; assumption.
Defined.

(** ** The breakdown with a category *)

(** With the button clicked, a long-format table, a borough and a
    category chosen, the breakdown figure is a line chart over Month and
    CrimeCount, one line per CrimeSubcategory, drawn from exactly the rows
    of the table that have this borough and this category, in table
    order; its counts add up to the pie chart's total for the category. *)
Theorem breakdown_figure_rows (df : DataFrame) (n_clicks : Z)
    (borough major : string) :
  n_clicks <> 0%Z ->
  long_format df = true ->
  borough <> "" ->
  major <> "" ->
  exists o breakdown_df,
    update_graphs_and_dropdown (Some df) n_clicks (Some major) (Some borough)
      = Ok o /\
    crime_breakdown_figure o
      = new_value
          (LineChart (Some breakdown_df) (Some "Month") (Some "CrimeCount")
             (Some "CrimeSubcategory")
             (Some ("Crime Trend Over Time for " ++ major ++ " in "
                    ++ borough)%string)) /\
    columns breakdown_df = columns df /\
    rows breakdown_df
      = filter (fun r => value_eqb (cell (columns df) r "MajorCrimeCategory")
                                   (VStr major))
               (borough_rows df borough) /\
    (forall r, In r (rows breakdown_df) <->
               In r (rows df) /\
               cell (columns df) r "BoroughName" = VStr borough /\
               cell (columns df) r "MajorCrimeCategory" = VStr major) /\
    crime_count_total (columns breakdown_df) (rows breakdown_df)
      = category_total df borough (VStr major).
Proof.
  intros Hn Hlong Hb Hm.
  destruct df as [cols rs].
  pose proof (long_format_columns _ Hlong) as Hc; simpl in Hc; subst cols.
  pose proof (long_format_rows _ Hlong) as Hrs; simpl in Hrs.
  destruct (update_graphs_and_dropdown_shown rs n_clicks (Some major) borough
              Hn Hrs Hb) as (t & p & ->).
  apply String.eqb_neq in Hm; rewrite Hm.
  eexists; eexists; split; [reflexivity|]; split; [reflexivity|].
  cbn [columns rows].
  split; [reflexivity|]; split; [reflexivity|]; split; [|reflexivity].
  intros r; rewrite !filter_In, !value_eqb_eq; tauto.
Qed.

Lemma breakdown_figure_rows_witness :
  exists o breakdown_df,
    update_graphs_and_dropdown (Some sample_long) 1 (Some "Theft")
      (Some "Camden") = Ok o /\
    crime_breakdown_figure o
      = new_value
          (LineChart (Some breakdown_df) (Some "Month") (Some "CrimeCount")
             (Some "CrimeSubcategory")
             (Some "Crime Trend Over Time for Theft in Camden")) /\
    crime_count_total (columns breakdown_df) (rows breakdown_df) = 8%Z.
Proof.
  destruct (breakdown_figure_rows sample_long 1 "Camden" "Theft")
    as (o & bdf & H1 & H2 & _ & _ & _ & H3).
  - discriminate.
  - reflexivity.
  - discriminate.
  - discriminate.
  - exists o, bdf; split; [assumption|]; split; [assumption|].
    rewrite H3; reflexivity.
Defined.

(** ** The callbacks never raise on a usable table *)

(** When the crime table is absent or a typed long table, neither callback
    raises, whatever the boundary data, the click count, the category and
    the borough. *)
Theorem callbacks_never_raise (crime_df : option DataFrame)
    (geojson_data : option GeoJSON) (n_clicks : Z)
    (selected_major_crime selected_borough : option string) :
  usable crime_df = true ->
  (exists fig, update_heatmap crime_df geojson_data n_clicks = Ok fig) /\
  (exists o,
     update_graphs_and_dropdown crime_df n_clicks selected_major_crime
       selected_borough = Ok o).
Proof.
  intros Hus; destruct crime_df as [df|]; cbn [usable] in Hus.
  - destruct df as [cols rs].
    pose proof (long_format_columns _ Hus) as Hc; simpl in Hc; subst cols.
    pose proof (long_format_rows _ Hus) as Hrs; simpl in Hrs.
    split.
    + destruct geojson_data as [gj|]; [|eexists; reflexivity].
      unfold update_heatmap; rewrite (groupby_borough_sum rs Hrs).
      eexists; reflexivity.
    + destruct (Z.eq_dec n_clicks 0) as [Hn | Hn].
      { exists hidden_outputs.
        apply update_graphs_and_dropdown_hidden; now left. }
      destruct (truthy selected_borough) eqn:Hb.
      * destruct selected_borough as [borough|]; [|discriminate].
        assert (Hne : borough <> "") by (intros ->; discriminate).
        destruct (update_graphs_and_dropdown_shown rs n_clicks
                    selected_major_crime borough Hn Hrs Hne)
          as (t & p & ->).
        eexists; reflexivity.
      * exists hidden_outputs.
        apply update_graphs_and_dropdown_hidden; now right; right.
  - split; [destruct geojson_data; eexists; reflexivity|].
    exists hidden_outputs.
    apply update_graphs_and_dropdown_hidden; right; now left.
Qed.

Lemma callbacks_never_raise_witness :
  (exists fig,
     update_heatmap (Some sample_long) (Some sample_geojson) 3 = Ok fig) /\
  (exists o,
     update_graphs_and_dropdown (Some sample_long) 3 (Some "Arson")
       (Some "Harrow") = Ok o).
Proof.
  apply (callbacks_never_raise (Some sample_long) (Some sample_geojson) 3
           (Some "Arson") (Some "Harrow")).
  reflexivity.
Defined.

(** ** The page at every moment *)

(** The outputs of a run are the hidden ones, or those of a run that got
    past the test: everything shown, three figures, the value cleared. *)
Lemma outputs_shape (crime_df : option DataFrame) (n_clicks : Z)
    (selected_major_crime selected_borough : option string) (o : Outputs) :
  update_graphs_and_dropdown crime_df n_clicks selected_major_crime
    selected_borough = Ok o ->
  o = hidden_outputs \/
  (n_clicks <> 0%Z /\ crime_df <> None /\ truthy selected_borough = true /\
   graph_container_style o = display_block /\
   pie_chart_style o = display_block /\
   major_crime_style o = display_block /\
   major_crime_value o = new_value None /\
   is_figure (crime_trend_figure o) = true /\
   is_figure (pie_chart_figure o) = true /\
   is_figure (crime_breakdown_figure o) = true).
Proof.
  unfold update_graphs_and_dropdown; intros H.
  destruct ((n_clicks =? 0)%Z || is_none crime_df
            || negb (truthy selected_borough)) eqn:G.
  - left; now injection H as <-.
  - apply orb_false_iff in G as [G Hb].
    apply orb_false_iff in G as [Hn Hc].
    apply Z.eqb_neq in Hn; apply negb_false_iff in Hb.
    destruct crime_df as [df|]; [|discriminate].
    destruct selected_borough as [borough|]; [|discriminate].
    bind_inv H; injection H as <-.
    right; repeat split; try assumption; discriminate.
Qed.

Lemma step_invariant (crime_df : option DataFrame)
    (geojson_data : option GeoJSON) (ui : UI) (ev : event) :
  dashboard_invariant crime_df ui ->
  dashboard_invariant crime_df (step crime_df geojson_data ui ev).
Proof.
  assert (Hfire : forall u,
            dashboard_invariant crime_df u ->
            dashboard_invariant crime_df (fire_graphs_and_dropdown crime_df u)).
  { intros u (Hn & Hp & Hd & Ho & Hs); unfold fire_graphs_and_dropdown.
    destruct (update_graphs_and_dropdown crime_df (navigate_n_clicks u)
                (major_crime_selection u) (borough_selection u))
      as [o|e] eqn:Hrun; [|repeat split; assumption].
    apply outputs_shape in Hrun
      as [-> | (Hn0 & Hc & _ & H1 & H2 & H3 & _)].
    - unfold dashboard_invariant; cbn.
      repeat split; try assumption; try reflexivity.
      destruct Hs as [(Ht & Hpi & Hbr & _) | Hs]; [left | right];
        repeat split; tauto.
    - unfold dashboard_invariant; cbn [apply_outputs navigate_n_clicks
        major_crime_pie_style graph_container major_crime_dropdown_style
        major_crime_dropdown_options].
      rewrite H1, H2, H3.
      repeat split; try assumption; try reflexivity; try discriminate.
      right; split; [lia | assumption]. }
  assert (Hheat : forall u,
            dashboard_invariant crime_df u ->
            dashboard_invariant crime_df
              (fire_heatmap crime_df geojson_data u)).
  { intros u Hu; unfold fire_heatmap.
    destruct (update_heatmap crime_df geojson_data (navigate_n_clicks u));
      exact Hu. }
  intros (Hn & Hp & Hd & Ho & Hs); destruct ev as [b| |m]; simpl.
  - repeat split; assumption.
  - apply Hfire, Hheat.
    unfold dashboard_invariant; cbn.
    repeat split; try assumption; try lia.
    destruct Hs as [Hs | [Hpos Hc]]; [now left | right; split; [lia | assumption]].
  - apply Hfire; repeat split; assumption.
Qed.

Lemma run_invariant (crime_df : option DataFrame)
    (geojson_data : option GeoJSON) (evs : list event) :
  forall ui,
    dashboard_invariant crime_df ui ->
    dashboard_invariant crime_df (run crime_df geojson_data ui evs).
Proof.
  unfold run; induction evs as [|ev evs IH]; intros ui H; simpl;
    [exact H|].
  apply IH, step_invariant, H.
Qed.

Lemma page_load_invariant (crime_df : option DataFrame)
    (geojson_data : option GeoJSON) :
  dashboard_invariant crime_df (page_load crime_df geojson_data).
Proof.
  unfold page_load, fire_graphs_and_dropdown.
  destruct (fire_heatmap_selection crime_df geojson_data layout_ui)
    as (H1 & H2 & H3).
  rewrite H1, H2, H3; cbn [layout_ui navigate_n_clicks borough_selection
                           major_crime_selection].
  rewrite (update_graphs_and_dropdown_hidden crime_df 0 None None)
    by now left.
  unfold fire_heatmap.
  destruct (update_heatmap crime_df geojson_data (navigate_n_clicks layout_ui));
    unfold dashboard_invariant; cbn; repeat split; try lia;
    left; repeat split.
Qed.

(** On the page, from loading on and whatever the user does, with any
    table and boundary data: the click count is never negative; the pie
    chart and the category dropdown are shown exactly when the graph
    container is; a hidden dashboard offers no category; and the
    dashboard is shown, or a chart drawn in it, only after a click and
    with the crime table present. *)
Theorem reachable_dashboard_invariant (crime_df : option DataFrame)
    (geojson_data : option GeoJSON) (ui : UI) :
  reachable crime_df geojson_data ui ->
  dashboard_invariant crime_df ui /\
  (graph_container ui = display_block ->
   (0 < navigate_n_clicks ui)%Z /\ crime_df <> None) /\
  (navigate_n_clicks ui = 0%Z \/ crime_df = None ->
   graph_container ui = display_none /\
   crime_trend_graph ui = None /\ major_crime_pie_chart ui = None /\
   crime_breakdown_graph ui = None).
Proof.
  intros [evs ->].
  pose proof (run_invariant crime_df geojson_data evs _
                (page_load_invariant crime_df geojson_data)) as Hinv.
  split; [exact Hinv|].
  destruct Hinv as (Hn & _ & _ & _ & Hs).
  split.
  - intros Hblock; destruct Hs as [(_ & _ & _ & Hnone) | Hs];
      [congruence | exact Hs].
  - intros Hor; destruct Hs as [(Ht & Hp & Hb & Hc) | [Hpos Hc]];
      [tauto|].
    destruct Hor as [H0 | Hnone]; [lia | contradiction].
Qed.

Lemma reachable_dashboard_invariant_witness :
  let crime_df := Some sample_long in
  let geojson_data := Some sample_geojson in
  let ui := run crime_df geojson_data (page_load crime_df geojson_data)
              [SelectBorough (Some "Camden"); NavigateClick] in
  dashboard_invariant crime_df ui /\ graph_container ui = display_block.
Proof.
  intros crime_df geojson_data ui.
  destruct (reachable_dashboard_invariant crime_df geojson_data ui)
    as [Hinv _].
  - exists [SelectBorough (Some "Camden"); NavigateClick]; reflexivity.
  - split; [exact Hinv | reflexivity].
Defined.

Lemma graphs_run_of_usable (crime_df : option DataFrame) (n_clicks : Z)
    (selected_major_crime selected_borough : option string) :
  usable crime_df = true ->
  exists o,
    update_graphs_and_dropdown crime_df n_clicks selected_major_crime
      selected_borough = Ok o.
Proof.
  intros Hus.
  destruct (Z.eq_dec n_clicks 0) as [Hn | Hn];
    [exists hidden_outputs; apply update_graphs_and_dropdown_hidden;
     now left|].
  destruct crime_df as [[cols rs]|];
    [|exists hidden_outputs; apply update_graphs_and_dropdown_hidden;
      right; now left].
  cbn [usable] in Hus.
  pose proof (long_format_columns _ Hus) as Hc; simpl in Hc; subst cols.
  pose proof (long_format_rows _ Hus) as Hrs; simpl in Hrs.
  destruct (truthy selected_borough) eqn:Hb;
    [|exists hidden_outputs; apply update_graphs_and_dropdown_hidden;
      now right; right].
  destruct selected_borough as [borough|]; [|discriminate].
  assert (Hne : borough <> "") by (intros ->; discriminate).
  destruct (update_graphs_and_dropdown_shown rs n_clicks selected_major_crime
              borough Hn Hrs Hne) as (t & p & ->).
  eexists; reflexivity.
Qed.

Lemma fire_graphs_clears (crime_df : option DataFrame) (ui : UI) :
  usable crime_df = true ->
  graph_container (fire_graphs_and_dropdown crime_df ui) = display_block ->
  major_crime_selection (fire_graphs_and_dropdown crime_df ui) = None.
Proof.
  intros Hus; unfold fire_graphs_and_dropdown.
  destruct (graphs_run_of_usable crime_df (navigate_n_clicks ui)
              (major_crime_selection ui) (borough_selection ui) Hus)
    as [o Ho].
  rewrite Ho.
  apply outputs_shape in Ho as [-> | (_ & _ & _ & _ & _ & _ & Hv & _)].
  - discriminate.
  - intros _; cbn [apply_outputs major_crime_selection]; now rewrite Hv.
Qed.

(** On the page, with the crime table absent or a typed long table:
    whenever the dashboard is shown, the category dropdown holds no
    value. *)
Theorem shown_dashboard_has_no_category (crime_df : option DataFrame)
    (geojson_data : option GeoJSON) (ui : UI) :
  usable crime_df = true ->
  reachable crime_df geojson_data ui ->
  graph_container ui = display_block ->
  major_crime_selection ui = None.
Proof.
  intros Hus [evs ->]; unfold run.
  assert (H0 : graph_container (page_load crime_df geojson_data)
               = display_block ->
               major_crime_selection (page_load crime_df geojson_data) = None)
    by (unfold page_load; now apply fire_graphs_clears).
  revert H0; generalize (page_load crime_df geojson_data).
  induction evs as [|ev evs IH]; intros ui H; simpl; [exact H|].
  apply IH; destruct ev as [b| |m]; simpl.
  - exact H.
  - now apply fire_graphs_clears.
  - now apply fire_graphs_clears.
Qed.

Lemma shown_dashboard_has_no_category_witness :
  let crime_df := Some sample_long in
  let geojson_data := Some sample_geojson in
  let ui := run crime_df geojson_data (page_load crime_df geojson_data)
              [SelectBorough (Some "Camden"); NavigateClick;
               SelectMajorCrime (Some "Theft")] in
  major_crime_selection ui = None.
Proof.
  intros crime_df geojson_data ui.
  apply (shown_dashboard_has_no_category crime_df geojson_data ui).
  - reflexivity.
  - exists [SelectBorough (Some "Camden"); NavigateClick;
            SelectMajorCrime (Some "Theft")]; reflexivity.
  - reflexivity.
Defined.

(** ** The heatmap on the page *)

Lemma update_heatmap_ignores_clicks (crime_df : option DataFrame)
    (geojson_data : option GeoJSON) (n m : Z) :
  update_heatmap crime_df geojson_data n
  = update_heatmap crime_df geojson_data m.
Proof. reflexivity. Qed.

Lemma fire_graphs_and_dropdown_heatmap (crime_df : option DataFrame)
    (ui : UI) :
  crime_heatmap (fire_graphs_and_dropdown crime_df ui) = crime_heatmap ui.
Proof.
  unfold fire_graphs_and_dropdown.
  destruct (update_graphs_and_dropdown crime_df (navigate_n_clicks ui)
              (major_crime_selection ui) (borough_selection ui));
    reflexivity.
Qed.

(** The figure a heatmap run leaves on the page, from a page that shows
    [h]: the run's figure, or [h] again when the run raises. *)
Lemma fire_heatmap_figure (crime_df : option DataFrame)
    (geojson_data : option GeoJSON) (ui : UI) :
  crime_heatmap (fire_heatmap crime_df geojson_data ui)
  = match update_heatmap crime_df geojson_data 0 with
    | Ok f => Some f
    | Raise _ => crime_heatmap ui
    end.
Proof.
  unfold fire_heatmap.
  rewrite (update_heatmap_ignores_clicks crime_df geojson_data
             (navigate_n_clicks ui) 0).
  destruct (update_heatmap crime_df geojson_data 0); reflexivity.
Qed.

(** On the page the heatmap never changes after loading: whatever the
    user selects and however often the button is clicked, the heatmap
    graph holds the figure of the first run (none, if that run raised). *)
Theorem heatmap_fixed_after_load (crime_df : option DataFrame)
    (geojson_data : option GeoJSON) (evs : list event) :
  crime_heatmap (run crime_df geojson_data
                   (page_load crime_df geojson_data) evs)
  = match update_heatmap crime_df geojson_data 0 with
    | Ok f => Some f
    | Raise _ => None
    end.
Proof.
  unfold run.
  assert (H0 : crime_heatmap (page_load crime_df geojson_data)
               = match update_heatmap crime_df geojson_data 0 with
                 | Ok f => Some f
                 | Raise _ => None
                 end).
  { unfold page_load.
    rewrite fire_graphs_and_dropdown_heatmap, fire_heatmap_figure.
    reflexivity. }
  revert H0; generalize (page_load crime_df geojson_data).
  induction evs as [|ev evs IH]; intros ui H; simpl; [exact H|].
  apply IH; destruct ev as [b| |m]; simpl.
  - exact H.
  - rewrite fire_graphs_and_dropdown_heatmap, fire_heatmap_figure.
    cbn [with_n_clicks crime_heatmap]; rewrite H.
    destruct (update_heatmap crime_df geojson_data 0); reflexivity.
  - rewrite fire_graphs_and_dropdown_heatmap; exact H.
Qed.

(** ** One record per borough, category, subcategory and month *)

Lemma nodupb_NoDup (l : list string) : nodupb l = true -> NoDup l.
Proof.
  induction l as [|x l IH]; simpl; intros H; constructor.
  - apply andb_true_iff in H as [H _]; apply negb_true_iff in H.
    intros Hin; apply mem_In in Hin; congruence.
  - apply andb_true_iff in H as [_ H]; now apply IH.
Qed.

Lemma value_columns_labels (cols ids : list string) :
  map snd (value_columns cols ids)
  = filter (fun c => negb (mem c ids)) cols.
Proof.
  unfold value_columns; generalize 0%nat.
  induction cols as [|c cols IH]; intros start; simpl; [reflexivity|].
  destruct (negb (mem c ids)); simpl; now rewrite IH.
Qed.

Lemma NoDup_map_snoc (x : value) (ts : list (list value)) :
  NoDup ts -> NoDup (map (fun t => t ++ [x]) ts).
Proof.
  induction 1 as [|t ts Ht _ IH]; simpl; constructor; [|assumption].
  intros Hin; apply in_map_iff in Hin as (t' & Heq & Hin).
  apply app_inj_tail in Heq as [-> _]; contradiction.
Qed.

(** Keys made of a row part and a column label: distinct row parts and
    distinct labels give distinct keys. *)
Lemma NoDup_keys_by_column (g : list value -> list value)
    (rs : list (list value)) (ps : list (nat * string)) :
  NoDup (map g rs) ->
  NoDup (map snd ps) ->
  NoDup (flat_map (fun p : nat * string =>
                     map (fun r => g r ++ [VStr (snd p)]) rs) ps).
Proof.
  intros Hrs; induction ps as [|p ps IH]; intros Hps; simpl;
    [constructor|].
  inversion Hps as [|c cs Hc Hcs]; subst.
  apply NoDup_app.
  - rewrite <- (map_map g (fun t => t ++ [VStr (snd p)])).
    now apply NoDup_map_snoc.
  - now apply IH.
  - intros k Hk Hk'.
    apply in_map_iff in Hk as (r & <- & _).
    apply in_flat_map in Hk' as (q & Hq & Hk').
    apply in_map_iff in Hk' as (r' & Heq & _).
    apply app_inj_tail in Heq as [_ Heq]; injection Heq as Heq.
    apply Hc; rewrite <- Heq; now apply in_map.
Qed.

(** When the wide table has no two rows with the same identifier cells,
    the reshaped table has no two rows with the same borough, major
    category, subcategory and month. *)
Theorem melt_crime_data_unique_records (wide : DataFrame) :
  valid_wide wide = true ->
  NoDup (map (id_tuple (columns wide)) (rows wide)) ->
  exists long,
    melt_crime_data (Some wide) = Ok (Some long) /\
    NoDup (map (record_key (columns long)) (rows long)).
Proof.
  intros Hvalid Hids.
  destruct (valid_wide_inv wide Hvalid) as (Hcc & Hmiss & _).
  assert (Hcols : NoDup (columns wide)).
  { unfold valid_wide in Hvalid.
    apply andb_true_iff in Hvalid as [H _].
    apply andb_true_iff in H as [H _].
    apply andb_true_iff in H as [H _].
    now apply nodupb_NoDup. }
  destruct wide as [cols rs]; cbn [columns rows] in *.
  eexists; split.
  - unfold melt_crime_data, melt; cbn [columns rows].
    rewrite Hcc, Hmiss; reflexivity.
  - cbn [columns rows].
    rewrite flat_map_concat_map, concat_map, map_map.
    rewrite <- flat_map_concat_map.
    rewrite (flat_map_ext _
               (fun p : nat * string =>
                  map (fun r => id_tuple cols r ++ [VStr (snd p)]) rs))
      by (intros p; rewrite map_map; reflexivity).
    apply NoDup_keys_by_column; [assumption|].
    rewrite value_columns_labels; now apply NoDup_filter.
Qed.

Lemma melt_crime_data_unique_records_witness :
  exists long,
    melt_crime_data (Some sample_wide) = Ok (Some long) /\
    NoDup (map (record_key (columns long)) (rows long)).
Proof.
  apply (melt_crime_data_unique_records sample_wide).
  - reflexivity.
  - vm_compute; repeat constructor; simpl; intuition discriminate.
Defined.

(** ** Loading *)



(** Without a crime file the module still loads, provided the boundary
    file is absent or has content: the crime table is [None], the borough
    dropdown offers the single entry "No data available" with the empty
    value, the heatmap callback answers the error placeholder and the
    combined callback the hidden outputs, whatever their arguments.  With
    an empty boundary file the import fails with [JSONDecodeError]. *)
Theorem load_module_without_crime_file (crime_csv : file DataFrame)
    (geojson_path : file GeoJSON) :
  crime_csv = Absent \/ crime_csv = Empty ->
  match geojson_path with
  | Empty => load_module crime_csv geojson_path = Raise JSONDecodeError
  | _ =>
      exists g,
        load_module crime_csv geojson_path = Ok g /\
        global_crime_df g = None /\
        global_borough_options g
          = [ {| label := VStr "No data available";
                 option_value := VStr "" |} ] /\
        (forall n_clicks,
           update_heatmap (global_crime_df g) (global_geojson_data g)
             n_clicks
           = Ok (empty_figure "Error: No data available")) /\
        (forall n_clicks major borough,
           update_graphs_and_dropdown (global_crime_df g) n_clicks major
             borough = Ok hidden_outputs)
  end.
Proof.
  intros [-> | ->]; destruct geojson_path as [| |gj];
    try reflexivity;
    (eexists; split; [reflexivity|]; cbn [global_crime_df];
     split; [reflexivity|]; split; [reflexivity|]; split;
     [intros n; reflexivity|];
     intros n m b; apply update_graphs_and_dropdown_hidden; right; now left).
Qed.

Lemma load_module_without_crime_file_witness :
  exists g,
    load_module Empty (Holds sample_geojson) = Ok g /\
    global_crime_df g = None.
Proof.
  destruct (load_module_without_crime_file Empty (Holds sample_geojson))
    as (g & H1 & H2 & _).
  - now right.
  - exists g; split; assumption.
Defined.

(** With a crime file that is a valid wide table once its two category
    columns are renamed, and a boundary file that is absent or has
    content, the module loads: the crime table is the reshaped, typed long
    table, the callbacks can work on it, and the borough dropdown offers
    its distinct boroughs. *)
Theorem load_module_with_crime_file (csv : DataFrame)
    (geojson_path : file GeoJSON) :
  valid_wide (rename csv [("MajorText", "MajorCrimeCategory");
                          ("MinorText", "CrimeSubcategory")]) = true ->
  geojson_path <> Empty ->
  exists g long,
    load_module (Holds csv) geojson_path = Ok g /\
    global_crime_df g = Some long /\
    long_format long = true /\
    usable (global_crime_df g) = true /\
    global_geojson_data g
      = match geojson_path with Holds gj => Some gj | _ => None end /\
    map option_value (global_borough_options g)
      = unique (map (fun r => cell (columns long) r "BoroughName")
                    (rows long)).
Proof.
  intros Hvalid Hgeo.
  destruct (melt_crime_data_long_format _ Hvalid) as (long & Hmelt & Hlong).
  assert (Hopts : get_borough_options (Some long)
                  = Ok (map (fun b => {| label := b; option_value := b |})
                            (unique (map (fun r => cell (columns long) r
                                                     "BoroughName")
                                         (rows long))))).
  { destruct long as [cols rs].
    pose proof (long_format_columns _ Hlong) as Hc; simpl in Hc; subst cols.
    reflexivity. }
  unfold load_module.
  change (load_crime_data (Holds csv))
    with (Ok (Some (rename csv [("MajorText", "MajorCrimeCategory");
                                ("MinorText", "CrimeSubcategory")]))).
  cbn [bind].
  destruct geojson_path as [| |gj]; [|contradiction|];
    cbn [load_geojson json_load try_except bind];
    rewrite Hmelt; cbn [bind]; rewrite Hopts; cbn [bind];
    (eexists; exists long; split; [reflexivity|];
     cbn [global_crime_df global_geojson_data global_borough_options usable];
     repeat split; try assumption;
     rewrite map_map; cbn [option_value]; apply map_id).
Qed.

Lemma load_module_with_crime_file_witness :
  exists g long,
    load_module (Holds sample_csv) Absent = Ok g /\
    global_crime_df g = Some long /\
    long_format long = true.
Proof.
  destruct (load_module_with_crime_file sample_csv Absent)
    as (g & long & H1 & H2 & H3 & _).
  - reflexivity.
  - discriminate.
  - exists g, long; repeat split; assumption.
Defined.

(** ** A populated dashboard *)

Lemma unique_nil (l : list value) : unique l = [] <-> l = [].
Proof. destruct l; simpl; split; intros H; congruence. Qed.

Lemma sort_values_nil (l : list value) : sort_values l = [] <-> l = [].
Proof.
  split; intros H.
  - apply Permutation_nil; rewrite <- H; apply sort_values_perm.
  - now subst.
Qed.

Lemma map_nil {A B : Type} (f : A -> B) (l : list A) :
  map f l = [] <-> l = [].
Proof. destruct l; simpl; split; intros H; congruence. Qed.

(** With the button clicked and a long-format table, the dashboard is
    shown for any non-empty borough value, and it is populated exactly
    when the table has rows for that borough: the trend frame, the pie
    frame and the category options are each empty if and only if the
    borough has no row.  A borough taken from the options of
    [get_borough_options] always has rows. *)
Theorem dashboard_populated_iff_borough_known (df : DataFrame)
    (n_clicks : Z) (selected_major_crime : option string)
    (borough : string) :
  n_clicks <> 0%Z ->
  long_format df = true ->
  borough <> "" ->
  (exists o trend_fig pie_chart_fig,
     update_graphs_and_dropdown (Some df) n_clicks selected_major_crime
       (Some borough) = Ok o /\
     graph_container_style o = display_block /\
     crime_trend_figure o = new_value trend_fig /\
     pie_chart_figure o = new_value pie_chart_fig /\
     (major_crime_options o = [] <-> borough_rows df borough = []) /\
     (plotted_rows trend_fig = [] <-> borough_rows df borough = []) /\
     (plotted_rows pie_chart_fig = [] <-> borough_rows df borough = [])) /\
  (forall opts,
     get_borough_options (Some df) = Ok opts ->
     In (VStr borough) (map option_value opts) ->
     borough_rows df borough <> []).
Proof.
  intros Hn Hlong Hne.
  destruct df as [cols rs].
  pose proof (long_format_columns _ Hlong) as Hc; simpl in Hc; subst cols.
  pose proof (long_format_rows _ Hlong) as Hrs; simpl in Hrs.
  split.
  - destruct (update_graphs_and_dropdown_figures rs n_clicks
                selected_major_crime borough Hn Hrs Hne)
      as (trend_df & pie_df & brk & Htrend & Hpie & Hrun).
    set (df := {| columns := long_columns; rows := rs |}) in *.
    assert (Hf : Forall (fun r => long_row_ok r = true)
                   (borough_rows df borough))
      by now apply Forall_filter_rows.
    apply groupby_sum_count_rows in Htrend as [_ Htr]; [|assumption].
    apply groupby_sum_count_rows in Hpie as [_ Hpr]; [|assumption].
    apply count_rows_facts in Htr as (Htk & _ & _).
    apply count_rows_facts in Hpr as (Hpk & _ & _).
    eexists; eexists; eexists.
    split; [exact Hrun|]; split; [reflexivity|]; split; [reflexivity|];
      split; [reflexivity|].
    cbn [major_crime_options plotted_rows].
    split; [|split].
    + unfold borough_categories.
      now rewrite map_nil, unique_nil, map_nil.
    + rewrite <- (map_nil (fun row => nth 0 row (VStr "")) (rows trend_df)).
      now rewrite Htk, sort_values_nil, unique_nil, map_nil.
    + rewrite <- (map_nil (fun row => nth 0 row (VStr "")) (rows pie_df)).
      now rewrite Hpk, sort_values_nil, unique_nil, map_nil.
  - intros opts Hopts Hin.
    cbn in Hopts; injection Hopts as <-.
    rewrite map_map in Hin; cbn [option_value] in Hin.
    rewrite map_id in Hin.
    apply unique_In, in_map_iff in Hin as (r & Hb & Hr).
    intros Hnil.
    assert (Hin : In r (borough_rows
                          {| columns := long_columns; rows := rs |} borough)).
    { apply filter_In; split; [assumption|].
      apply value_eqb_eq; exact Hb. }
    rewrite Hnil in Hin; contradiction.
Qed.

Lemma dashboard_populated_iff_borough_known_witness :
  exists o,
    update_graphs_and_dropdown (Some sample_long) 1 None (Some "Barnet")
      = Ok o /\
    graph_container_style o = display_block /\
    (major_crime_options o = [] <-> borough_rows sample_long "Barnet" = []).
Proof.
  destruct (dashboard_populated_iff_borough_known sample_long 1 None "Barnet")
    as [(o & t & p & H1 & H2 & _ & _ & H3 & _) _].
  - discriminate.
  - reflexivity.
  - discriminate.
  - exists o; repeat split; try assumption; apply H3.
Defined.

(** A borough the table does not have (a value kept from an earlier
    session, say): the dashboard is shown, with nothing in it. *)
Example unknown_borough_sample :
  exists o,
    update_graphs_and_dropdown (Some sample_long) 1 None (Some "Harrow")
      = Ok o /\
    graph_container_style o = display_block /\
    major_crime_options o = [].
Proof. eexists; repeat split. Qed.
